(** * salt/modules/hipchat.py: the HipChat execution module

    A shallow embedding of [_query], [list_rooms], [list_users],
    [find_room], [find_user] and [send_message].

    Python values are split into the scalars that travel in request
    parameters and credentials ([scalar]) and the values a decoded JSON
    response can hold ([pyval]; JSON floats are left out, no function of
    the module inspects one).  Strings are Python 2 byte strings, i.e.
    Rocq's [string].

    The module talks to three collaborators that are not part of it:
    the [__salt__] loader dictionary, [requests.request] and
    [urlparse.urljoin].  They are the variables of section [Hipchat].
    The effects of the module (the dictionaries it allocates and mutates,
    the requests it hands to the transport, the log records it emits) are
    threaded through an explicit [world], and Python exceptions are the
    [Raise] outcome of a computation. *)

From stdpp Require Import gmap strings list pretty.
From Stdlib Require Import ZArith Lia.

Local Open Scope Z_scope.

(** ** Values *)

Inductive scalar :=
  | SNone
  | SBool (b : bool)
  | SInt (z : Z)
  | SStr (s : string).

#[warnings="-register-all"]
Inductive pyval :=
  | Atom (a : scalar)
  | PList (l : list pyval)
  | PDict (d : list (string * pyval)).

Abbreviation PNone := (Atom SNone).
Abbreviation PTrue := (Atom (SBool true)).
Abbreviation PFalse := (Atom (SBool false)).

(** Python exceptions the module can meet.  [RequestException] stands for
    every failure of [requests] that is not a [ConnectionError] (a read
    timeout, too many redirects, ...). *)
Inductive exn :=
  | NameError
  | KeyError
  | IndexError
  | AttributeError
  | TypeError
  | ValueError
  | ConnectionError
  | RequestException.

Inductive outcome (A : Type) :=
  | Ret (a : A)
  | Raise (e : exn).
Arguments Ret {A} a.
Arguments Raise {A} e.

#[global] Instance scalar_eq_dec : EqDecision scalar.
Proof. solve_decision. Defined.

#[global] Instance exn_eq_dec : EqDecision exn.
Proof. solve_decision. Defined.

(** [bool(x)] *)
Definition truthy (a : scalar) : bool :=
  match a with
  | SNone => false
  | SBool b => b
  | SInt z => negb (z =? 0)
  | SStr s => negb (String.eqb s "")
  end.

Definition py_truthy (v : pyval) : bool :=
  match v with
  | Atom a => truthy a
  | PList l => negb (bool_decide (l = []))
  | PDict d => negb (bool_decide (d = []))
  end.

(** [str(x)] *)
Definition py_str (a : scalar) : string :=
  match a with
  | SNone => "None"
  | SBool true => "True"
  | SBool false => "False"
  | SInt z => pretty z
  | SStr s => s
  end.

(** [s[:n]] *)
Definition slice_to (n : Z) (s : string) : string :=
  String.substring 0 (Z.to_nat n) s.

(** [d.get(k)] on a dictionary of scalars: [None] when the key is absent. *)
Definition dict_get (d : gmap string scalar) (k : string) : scalar :=
  default SNone (d !! k).

(** ** Decoded JSON: the operations the module applies to it *)

Fixpoint assoc (k : string) (d : list (string * pyval)) : option pyval :=
  match d with
  | [] => None
  | (k', v) :: d' => if String.eqb k' k then Some v else assoc k d'
  end.

(** [v.get(key)]; only a dictionary has the attribute.  The keys of a
    decoded JSON object are strings, so the key [None] is never found. *)
Definition py_get (v : pyval) (key : option string) : outcome pyval :=
  match v with
  | PDict d =>
      match key with
      | Some k => Ret (default PNone (assoc k d))
      | None => Ret PNone
      end
  | _ => Raise AttributeError
  end.

(** [len(v)] *)
Definition py_len (v : pyval) : outcome nat :=
  match v with
  | PList l => Ret (List.length l)
  | PDict d => Ret (List.length d)
  | Atom (SStr s) => Ret (String.length s)
  | Atom _ => Raise TypeError
  end.

(** [v[x]] for an integer [x]; the module only uses it with [x] in
    [range(0, len(v))]. *)
Definition py_index (v : pyval) (x : nat) : outcome pyval :=
  match v with
  | PList l =>
      match l !! x with
      | Some r => Ret r
      | None => Raise IndexError
      end
  | PDict _ => Raise KeyError
  | Atom (SStr s) => Ret (Atom (SStr (String.substring x 1 s)))
  | Atom _ => Raise TypeError
  end.

(** [v[k]] for a string key [k]. *)
Definition py_item (v : pyval) (k : string) : outcome pyval :=
  match v with
  | PDict d =>
      match assoc k d with
      | Some r => Ret r
      | None => Raise KeyError
      end
  | _ => Raise TypeError
  end.

(** [v == name] for a string [name]. *)
Definition py_eq_str (v : pyval) (name : string) : bool :=
  match v with
  | Atom (SStr s) => String.eqb s name
  | _ => false
  end.

(** ** Requests, responses, logging *)

(** What [json.dumps] writes for a scalar. *)
Inductive json_lit :=
  | JNull
  | JTrue
  | JFalse
  | JNumber (z : Z)
  | JString (s : string).

Definition json_of_scalar (a : scalar) : json_lit :=
  match a with
  | SNone => JNull
  | SBool true => JTrue
  | SBool false => JFalse
  | SInt z => JNumber z
  | SStr s => JString s
  end.

(** [json.dumps(d)]: the JSON object, member by member. *)
Definition json_dumps (d : gmap string scalar) : gmap string json_lit :=
  json_of_scalar <$> d.

(** The [data] argument of [requests.request]: the dictionary itself
    (form-encoded by the transport) or the text [json.dumps] produced. *)
Inductive body :=
  | FormData (d : gmap string scalar)
  | JsonText (doc : gmap string json_lit).

Record request := Request {
  req_method : string;
  req_url : string;
  req_headers : gmap string string;
  req_params : gmap string scalar;
  req_data : body;
  req_verify : bool
}.

(** A response: [status_code], and what [.json()] gives, [None] standing
    for the [ValueError] of a body that is not JSON. *)
Record response := Response {
  status_code : Z;
  json : option pyval
}.

Inductive log_arg :=
  | LText (s : string)
  | LExn (e : exn)
  | LParams (d : gmap string scalar)
  | LBody (b : body)
  | LResponse (r : response)
  | LValue (v : pyval).

Inductive level := ERROR | DEBUG.

(** ** The loader dictionary [__salt__] *)

(** What [config.option('hipchat')] hands back: a mapping, or a value
    without a [get] attribute (the loader's default is the empty string). *)
Inductive options :=
  | OptDict (d : gmap string scalar)
  | OptAtom (a : scalar).

Inductive salt_env :=
  | SaltUnbound
  | SaltWithout
  | SaltConfig (config_option : string -> options).

(** ** World and computations *)

Record world := World {
  heap : list (gmap string scalar);
  calls : list request;
  logs : list (level * log_arg)
}.

Definition world0 : world := World [] [] [].

Definition M (A : Type) : Type := world -> outcome A * world.

Definition ret {A} (a : A) : M A := fun w => (Ret a, w).

Definition raise {A} (e : exn) : M A := fun w => (Raise e, w).

Definition bind {A B} (m : M A) (k : A -> M B) : M B :=
  fun w =>
    match m w with
    | (Ret a, w') => k a w'
    | (Raise e, w') => (Raise e, w')
    end.

Definition lift {A} (o : outcome A) : M A := fun w => (o, w).

(** [try: body except <the classes h accepts>: handler] *)
Definition try_except {A} (m : M A) (h : exn -> option (M A)) : M A :=
  fun w =>
    match m w with
    | (Ret a, w') => (Ret a, w')
    | (Raise e, w') =>
        match h e with
        | Some handler => handler w'
        | None => (Raise e, w')
        end
    end.

Declare Scope py_scope.
Delimit Scope py_scope with py.
Notation "x <- m ;; k" := (bind m (fun x => k))
  (at level 100, m at next level, right associativity) : py_scope.
Notation "m ;;; k" := (bind m (fun _ => k))
  (at level 100, right associativity) : py_scope.
Local Open Scope py_scope.

Definition log (lv : level) (a : log_arg) : M unit :=
  fun w => (Ret tt, World (heap w) (calls w) (logs w ++ [(lv, a)])).

(** A fresh dictionary object; its reference is its index in the heap.
    Objects are never freed, so a reference obtained from [alloc] stays
    live; [load] and [store] are only meant for live references (see
    [live] below). *)
Definition alloc (d : gmap string scalar) : M nat :=
  fun w => (Ret (List.length (heap w)), World (heap w ++ [d]) (calls w) (logs w)).

Definition load (l : nat) : M (gmap string scalar) :=
  fun w => (Ret (default ∅ (heap w !! l)), w).

Definition store (l : nat) (d : gmap string scalar) : M unit :=
  fun w => (Ret tt, World (<[l := d]> (heap w)) (calls w) (logs w)).

(** [d[k] = v] on the object behind reference [l]. *)
Definition setitem (l : nat) (k : string) (v : scalar) : M unit :=
  d <- load l ;; store l (<[k := v]> d).

(** ** The operation table *)

Record descriptor := Descriptor {
  request_path : string;
  response_key : option string
}.

Definition hipchat_functions (room_id : string)
  : gmap string (gmap string descriptor) :=
  {[ "v1" := {[ "rooms" := Descriptor "rooms/list" (Some "rooms");
                "users" := Descriptor "users/list" (Some "users");
                "message" := Descriptor "rooms/message" (Some "status") ]};
     "v2" := {[ "rooms" := Descriptor "room" (Some "items");
                "users" := Descriptor "user" (Some "items");
                "message" :=
                  Descriptor ("room/" +:+ room_id +:+ "/notification") None ]} ]}.

(** [hipchat_functions.get(api_version).get(function)]: the attribute
    [get] of [None] is an [AttributeError]. *)
Definition lookup_descriptor (room_id api_version function : string)
  : outcome (option descriptor) :=
  match hipchat_functions room_id !! api_version with
  | Some fs => Ret (fs !! function)
  | None => Raise AttributeError
  end.

Definition descriptor_field {A} (f : descriptor -> A) (o : option descriptor)
  : outcome A :=
  match o with
  | Some d => Ret (f d)
  | None => Raise AttributeError
  end.

Definition api_url : string := "https://api.hipchat.com".

(** ** The module *)

(** The public operations, with the arguments each takes besides the
    credentials. *)
Inductive operation :=
  | ListRooms
  | ListUsers
  | FindRoom (name : string)
  | FindUser (name : string)
  | SendMessage (room_id : scalar) (message from_name : string)
      (color notify : scalar).

Section Hipchat.

(** The loader dictionary, [requests.request] and [urlparse.urljoin]
    ([url_join base url allow_fragments]). *)
Variable __salt__ : salt_env.
Variable transport : request -> outcome response.
Variable url_join : string -> string -> bool -> string.

(** [__salt__['config.option'](name)]: a [NameError] when the loader
    never injected [__salt__], a [KeyError] when it has no such entry. *)
Definition config_option (name : string) : M options :=
  match __salt__ with
  | SaltUnbound => raise NameError
  | SaltWithout => raise KeyError
  | SaltConfig f => ret (f name)
  end.

(** [options.get(k)] *)
Definition options_get (o : options) (k : string) : M scalar :=
  match o with
  | OptDict d => ret (dict_get d k)
  | OptAtom _ => raise AttributeError
  end.

(** [requests.request(...)]: the call is recorded, then answered. *)
Definition send (req : request) : M response :=
  fun w => (transport req, World (heap w) (calls w ++ [req]) (logs w)).

(** [result.json()] *)
Definition response_json (r : response) : M pyval :=
  match json r with
  | Some v => ret v
  | None => raise ValueError
  end.

(** Lines 89-98: the credentials after the fall-back on the
    configuration, [None] for the [return False] of the handler. *)
Definition resolve (api_key api_version : scalar)
  : M (option (scalar * scalar)) :=
  if negb (truthy api_key) || negb (truthy api_version) then
    try_except
      (options <- config_option "hipchat" ;;
       api_key <- (if negb (truthy api_key)
                   then options_get options "api_key"
                   else ret api_key) ;;
       api_version <- (if negb (truthy api_version)
                       then options_get options "api_version"
                       else ret api_version) ;;
       ret (Some (api_key, api_version)))
      (fun e =>
         match e with
         | NameError | KeyError | AttributeError =>
             Some (log ERROR (LText "No HipChat api key or version found.") ;;;
                   ret None)
         | _ => None
         end)
  else ret (Some (api_key, api_version)).

(** Lines 105-121: headers, query parameters and body of the request,
    [None] for the [return False] of the last branch.  Under v1 the
    [notify] entry is written into the dictionary object itself. *)
Definition prepare (api_version : string) (api_key : scalar)
    (method : string) (data : nat)
  : M (option (gmap string string * gmap string scalar * body)) :=
  let headers : gmap string string := ∅ in
  let query_params : gmap string scalar := ∅ in
  if decide (api_version = "v1") then
    let query_params := <["format" := SStr "json"]> query_params in
    let query_params := <["auth_token" := api_key]> query_params in
    let headers :=
      if decide (method = "POST")
      then <["Content-Type" := "application/x-www-form-urlencoded"]> headers
      else headers in
    d <- load data ;;
    (if truthy (dict_get d "notify")
     then setitem data "notify" (SInt 1)
     else setitem data "notify" (SInt 0)) ;;;
    d <- load data ;;
    ret (Some (headers, query_params, FormData d))
  else if decide (api_version = "v2") then
    let headers := <["Authorization" := "Bearer " +:+ py_str api_key]> headers in
    d <- load data ;;
    ret (Some (headers, query_params, JsonText (json_dumps d)))
  else
    log ERROR (LText "Unsupported HipChat API version") ;;;
    ret None.

(** Lines 136-149. *)
Definition interpret (room_id api_version function : string)
    (url : string) (query_params : gmap string scalar) (data : body)
    (result : response) : M pyval :=
  if status_code result =? 200 then
    decoded <- response_json result ;;
    o <- lift (lookup_descriptor room_id api_version function) ;;
    response <- lift (descriptor_field response_key o) ;;
    lift (py_get decoded response)
  else if status_code result =? 204 then
    ret PTrue
  else
    log DEBUG (LText url) ;;;
    log DEBUG (LParams query_params) ;;;
    log DEBUG (LBody data) ;;;
    log DEBUG (LResponse result) ;;;
    j <- response_json result ;;
    e <- lift (py_get j (Some "error")) ;;
    (if py_truthy e
     then j <- response_json result ;; log ERROR (LValue j)
     else ret tt) ;;;
    ret PFalse.

(** Lines 53-56. *)
Definition room_id_of (data : gmap string scalar) : string :=
  if truthy (dict_get data "room_id")
  then py_str (dict_get data "room_id")
  else "0".

(** Lines 123-149: the call, the handler of [requests.ConnectionError]
    and the reading of the answer. *)
Definition execute (room_id api_version function : string)
    (method url : string) (headers : gmap string string)
    (query_params : gmap string scalar) (data : body) : M pyval :=
  result <-
    try_except
      (r <- send (Request method url headers query_params data true) ;;
       ret (Some r))
      (fun e =>
         match e with
         | ConnectionError => Some (log ERROR (LExn e) ;;; ret None)
         | _ => None
         end) ;;
  match result with
  | None => ret PFalse
  | Some result =>
      interpret room_id api_version function url query_params data result
  end.

Definition _query (function : string) (api_key api_version : scalar)
    (method : string) (data : option nat) : M pyval :=
  data <- (match data with
           | None => alloc ∅
           | Some l => ret l
           end) ;;
  d <- load data ;;
  let room_id := room_id_of d in
  creds <- resolve api_key api_version ;;
  match creds with
  | None => ret PFalse
  | Some (api_key, SStr api_version) =>
      let base_url := url_join api_url (api_version +:+ "/") true in
      o <- lift (lookup_descriptor room_id api_version function) ;;
      path <- lift (descriptor_field request_path o) ;;
      let url := url_join base_url path false in
      prepared <- prepare api_version api_key method data ;;
      match prepared with
      | None => ret PFalse
      | Some (headers, query_params, data) =>
          execute room_id api_version function
            method url headers query_params data
      end
  | Some (_, _) => raise TypeError
  end.

Definition list_rooms (api_key api_version : scalar) : M pyval :=
  _query "rooms" api_key api_version "GET" None.

Definition list_users (api_key api_version : scalar) : M pyval :=
  _query "users" api_key api_version "GET" None.

(** The loop [for x in range(0, len(rooms))] of [find_room] and
    [find_user], over the indices still to visit: [Ret (Some r)] is the
    [return rooms[x]] inside it, [Ret None] the loop running out. *)
Fixpoint scan (rooms : pyval) (name : string) (xs : list nat)
  : outcome (option pyval) :=
  match xs with
  | [] => Ret None
  | x :: xs' =>
      match py_index rooms x with
      | Raise e => Raise e
      | Ret r =>
          match py_item r "name" with
          | Raise e => Raise e
          | Ret field =>
              if py_eq_str field name
              then match py_index rooms x with
                   | Raise e => Raise e
                   | Ret r => Ret (Some r)
                   end
              else scan rooms name xs'
          end
      end
  end.

Definition find_in (rooms : pyval) (name : string) : M pyval :=
  if py_truthy rooms then
    n <- lift (py_len rooms) ;;
    found <- lift (scan rooms name (seq 0 n)) ;;
    match found with
    | Some r => ret r
    | None => ret PFalse
    end
  else ret PFalse.

Definition find_room (name : string) (api_key api_version : scalar)
  : M pyval :=
  rooms <- list_rooms api_key api_version ;;
  find_in rooms name.

Definition find_user (name : string) (api_key api_version : scalar)
  : M pyval :=
  users <- list_users api_key api_version ;;
  find_in users name.

Definition send_message (room_id : scalar) (message from_name : string)
    (api_key api_version : scalar) (color notify : scalar) : M pyval :=
  parameters <- alloc ∅ ;;
  setitem parameters "room_id" room_id ;;;
  setitem parameters "from" (SStr (slice_to 15 from_name)) ;;;
  setitem parameters "message" (SStr (slice_to 10000 message)) ;;;
  setitem parameters "message_format" (SStr "text") ;;;
  setitem parameters "color" color ;;;
  setitem parameters "notify" notify ;;;
  result <- _query "message" api_key api_version "POST" (Some parameters) ;;
  if py_truthy result then ret PTrue else ret PFalse.

(** A call of a public operation. *)
Definition call (op : operation) (api_key api_version : scalar) : M pyval :=
  match op with
  | ListRooms => list_rooms api_key api_version
  | ListUsers => list_users api_key api_version
  | FindRoom name => find_room name api_key api_version
  | FindUser name => find_user name api_key api_version
  | SendMessage room_id message from_name color notify =>
      send_message room_id message from_name api_key api_version color notify
  end.

End Hipchat.

(** ** Situations the statements below talk about *)

(** The fall-back on the configuration ends in the handler of lines 96-98:
    [__salt__] is unbound, has no ['config.option'], or the option is not
    a mapping. *)
Definition unconfigured (salt : salt_env) : Prop :=
  match salt with
  | SaltUnbound | SaltWithout => True
  | SaltConfig f =>
      match f "hipchat" with
      | OptAtom _ => True
      | OptDict _ => False
      end
  end.

(** The credentials [_query] goes on with are [api_key'] and
    [api_version']: the ones passed in, or read from the configuration. *)
Definition credentials (salt : salt_env)
    (api_key api_version api_key' api_version' : scalar) : Prop :=
  forall w,
    resolve salt api_key api_version w
    = (Ret (Some (api_key', api_version')), w).

(** The three operation names the public functions pass to [_query]. *)
Definition known (function : string) : Prop :=
  function = "rooms" \/ function = "users" \/ function = "message".

(** The reference [_query] works on and the world it starts from, once
    [data] has been defaulted (lines 50-51). *)
Definition data_ref (data : option nat) (w : world) : nat :=
  match data with
  | None => List.length (heap w)
  | Some l => l
  end.

Definition data_world (data : option nat) (w : world) : world :=
  match data with
  | None => World (heap w ++ [∅]) (calls w) (logs w)
  | Some _ => w
  end.

(** A reference handed in by a caller points to a live dictionary. *)
Definition live (data : option nat) (w : world) : Prop :=
  match data with
  | None => True
  | Some l => (l < List.length (heap w))%nat
  end.

(** A room or user record with a [name] field holding [name]. *)
Definition named (r : pyval) (name : string) : Prop :=
  exists d, r = PDict d /\ assoc "name" d = Some (Atom (SStr name)).

(** A record with some [name] field. *)
Definition has_name (r : pyval) : Prop :=
  exists d f, r = PDict d /\ assoc "name" d = Some f.

(** The dictionary [send_message] has built when it calls [_query]
    (lines 264-270). *)
Definition message_parameters (room_id : scalar) (message from_name : string)
    (color notify : scalar) : gmap string scalar :=
  <["notify" := notify]>
    (<["color" := color]>
       (<["message_format" := SStr "text"]>
          (<["message" := SStr (slice_to 10000 message)]>
             (<["from" := SStr (slice_to 15 from_name)]>
                (<["room_id" := room_id]> ∅))))).

(** The body has the member [key], with the value [a] as the encoding of
    the body writes it. *)
Definition carries (b : body) (key : string) (a : scalar) : Prop :=
  match b with
  | FormData d => d !! key = Some a
  | JsonText doc => doc !! key = Some (json_of_scalar a)
  end.

(** What line 112-115 leave under [notify]. *)
Definition notify_flag (data : gmap string scalar) : scalar :=
  SInt (if truthy (dict_get data "notify") then 1 else 0).

(** [r] is what a search for [name] in [records] is to give: the first
    record, in the order of the list, whose [name] field is [name], and
    [False] when there is none. *)
Definition first_named (name : string) (records : list pyval) (r : pyval)
  : Prop :=
  (exists before after,
      records = before ++ r :: after
      /\ Forall (fun x => ~ named x name) before
      /\ named r name)
  \/ (Forall (fun x => ~ named x name) records /\ r = PFalse).

(** The answer of the specification's example:
    [{"rooms": [{"name": "Dev"}, {"name": "Ops"}]}]. *)
Definition two_rooms : pyval :=
  PDict [("rooms", PList [PDict [("name", Atom (SStr "Dev"))];
                          PDict [("name", Atom (SStr "Ops"))]])].

(** The names of the members of a body. *)
Definition body_keys (b : body) : gset string :=
  match b with
  | FormData d => dom d
  | JsonText doc => dom doc
  end.

(** The version strings with an entry in the table. *)
Definition supported (ver : string) : Prop := ver = "v1" \/ ver = "v2".

(** What [find_room] and [find_user] list, and the name they look for. *)
Definition listing (op : operation) : option (string * string) :=
  match op with
  | FindRoom name => Some ("rooms", name)
  | FindUser name => Some ("users", name)
  | _ => None
  end.

(** The failure kinds whose handling is written in the module, each with a
    situation that produces it and the outcome an operation has in it.
    The transport is taken to answer every request alike. *)
Inductive failure (salt : salt_env) (tr : request -> outcome response)
    (k v : scalar) : operation -> outcome pyval -> Prop :=
  | MissingCredential op :
      truthy k = false \/ truthy v = false ->
      unconfigured salt ->
      failure salt tr k v op (Ret PFalse)
  | TransportError op k' ver :
      credentials salt k v k' (SStr ver) ->
      supported ver ->
      (forall req, tr req = Raise ConnectionError) ->
      failure salt tr k v op (Ret PFalse)
  | HttpError op k' ver :
      credentials salt k v k' (SStr ver) ->
      supported ver ->
      (forall req, exists status d,
          tr req = Ret (Response status (Some (PDict d)))
          /\ status <> 200 /\ status <> 204) ->
      failure salt tr k v op (Ret PFalse)
  | NotFound op k' ver function name path key body records :
      credentials salt k v k' (SStr ver) ->
      listing op = Some (function, name) ->
      lookup_descriptor "0" ver function
      = Ret (Some (Descriptor path (Some key))) ->
      (forall req, tr req = Ret (Response 200 (Some (PDict body)))) ->
      assoc key body = Some (PList records) ->
      Forall has_name records ->
      Forall (fun r => ~ named r name) records ->
      failure salt tr k v op (Ret PFalse)
  | DecodeError op k' ver :
      credentials salt k v k' (SStr ver) ->
      supported ver ->
      (forall req, tr req = Ret (Response 200 None)) ->
      failure salt tr k v op (Raise ValueError).

(** ** Stand-ins for the collaborators, for the concrete runs *)

Fixpoint ends_with_slash (s : string) : bool :=
  match s with
  | EmptyString => false
  | String _ EmptyString => String.eqb s "/"
  | String _ s' => ends_with_slash s'
  end.

(** [urljoin] on the URLs of this module: a base, and a relative path
    without scheme, leading slash or dot segments. *)
Definition join_paths (base rel : string) (allow_fragments : bool) : string :=
  if ends_with_slash base then base +:+ rel else base +:+ "/" +:+ rel.

(** A transport that answers every request the same way. *)
Definition answering (status : Z) (decoded : option pyval)
  : request -> outcome response :=
  fun _ => Ret (Response status decoded).

Definition failing (e : exn) : request -> outcome response :=
  fun _ => Raise e.

(** A configuration with a [hipchat] mapping [d]. *)
Definition configured (d : gmap string scalar) : salt_env :=
  SaltConfig (fun _ => OptDict d).

(** [s * n] *)
Fixpoint repeat_str (s : string) (n : nat) : string :=
  match n with
  | O => ""
  | S n' => s +:+ repeat_str s n'
  end.

(** * Properties *)

(** ** One step of a computation *)

Section Steps.
Context {A B : Type}.
Implicit Types (k : A -> M B) (w : world).

Lemma bind_ret (a : A) k w : bind (ret a) k w = k a w.
Proof. reflexivity. Qed.

Lemma bind_raise e k w : bind (raise e) k w = (Raise e, w).
Proof. reflexivity. Qed.

Lemma bind_lift_ret (a : A) k w : bind (lift (Ret a)) k w = k a w.
Proof. reflexivity. Qed.

Lemma bind_lift_raise e k w : bind (lift (Raise e)) k w = (Raise e, w).
Proof. reflexivity. Qed.

Lemma bind_run (m : M A) k w a w' : m w = (Ret a, w') -> bind m k w = k a w'.
Proof. intros E. unfold bind. rewrite E. reflexivity. Qed.

Lemma bind_fail (m : M A) k w e w' :
  m w = (Raise e, w') -> bind m k w = (Raise e, w').
Proof. intros E. unfold bind. rewrite E. reflexivity. Qed.

End Steps.

Lemma bind_alloc {B} d (k : nat -> M B) w :
  bind (alloc d) k w
  = k (List.length (heap w)) (World (heap w ++ [d]) (calls w) (logs w)).
Proof. reflexivity. Qed.

Lemma bind_load {B} l (k : gmap string scalar -> M B) w :
  bind (load l) k w = k (default ∅ (heap w !! l)) w.
Proof. reflexivity. Qed.

Lemma bind_log {B} lv a (k : unit -> M B) w :
  bind (log lv a) k w = k tt (World (heap w) (calls w) (logs w ++ [(lv, a)])).
Proof. reflexivity. Qed.

Lemma bind_setitem {B} l key v (k : unit -> M B) w :
  bind (setitem l key v) k w
  = k tt (World (<[l := <[key := v]> (default ∅ (heap w !! l))]> (heap w))
            (calls w) (logs w)).
Proof. reflexivity. Qed.

(** ** The operation table *)

Lemma truthy_str v : v <> "" -> truthy (SStr v) = true.
Proof. destruct v; done. Qed.

Lemma lookup_unsupported room_id v f :
  v <> "v1" -> v <> "v2" -> lookup_descriptor room_id v f = Raise AttributeError.
Proof.
  intros H1 H2. unfold lookup_descriptor, hipchat_functions.
  rewrite lookup_insert_ne by done.
  by rewrite lookup_singleton_ne.
Qed.

Lemma lookup_known_v1 room_id f :
  known f ->
  exists p e, lookup_descriptor room_id "v1" f = Ret (Some (Descriptor p (Some e))).
Proof. intros [-> | [-> | ->]]; eexists _, _; reflexivity. Qed.

Lemma lookup_known_v2 room_id f :
  known f ->
  exists p e, lookup_descriptor room_id "v2" f = Ret (Some (Descriptor p e)).
Proof. intros [-> | [-> | ->]]; eexists _, _; reflexivity. Qed.

Lemma lookup_message_v2 room_id :
  lookup_descriptor room_id "v2" "message"
  = Ret (Some (Descriptor ("room/" +:+ room_id +:+ "/notification") None)).
Proof. reflexivity. Qed.

(** ** Credentials *)

Lemma resolve_explicit salt k v w :
  truthy k = true -> truthy v = true ->
  resolve salt k v w = (Ret (Some (k, v)), w).
Proof. intros Hk Hv. unfold resolve. by rewrite Hk, Hv. Qed.

Lemma resolve_unconfigured salt k v w :
  truthy k = false \/ truthy v = false ->
  unconfigured salt ->
  resolve salt k v w
  = (Ret None,
     World (heap w) (calls w)
       (logs w ++ [(ERROR, LText "No HipChat api key or version found.")])).
Proof.
  intros Hkv Hs. unfold resolve.
  assert (negb (truthy k) || negb (truthy v) = true) as ->.
  { destruct Hkv as [-> | ->]; [done | by rewrite orb_true_r]. }
  destruct salt as [| | f]; [reflexivity | reflexivity |].
  simpl in Hs. unfold try_except, config_option, bind, ret. cbv beta iota.
  destruct (f "hipchat") as [d | a]; [done |].
  by destruct (truthy k), (truthy v), Hkv.
Qed.

Lemma resolve_configured d k v w :
  truthy k = false \/ truthy v = false ->
  resolve (configured d) k v w
  = (Ret (Some (if truthy k then k else dict_get d "api_key",
                if truthy v then v else dict_get d "api_version")), w).
Proof.
  intros Hkv. unfold resolve.
  assert (negb (truthy k) || negb (truthy v) = true) as ->.
  { destruct Hkv as [-> | ->]; [done | by rewrite orb_true_r]. }
  by destruct (truthy k), (truthy v).
Qed.

(** ** Building the request *)

Lemma prepare_v1 k m l w :
  (l < List.length (heap w))%nat ->
  let d := default ∅ (heap w !! l) in
  let d' := <["notify" := SInt (if truthy (dict_get d "notify") then 1 else 0)]> d in
  prepare "v1" k m l w
  = (Ret (Some (if decide (m = "POST")
                then {["Content-Type" := "application/x-www-form-urlencoded"]}
                else ∅,
                <["auth_token" := k]> {["format" := SStr "json"]},
                FormData d')),
     World (<[l := d']> (heap w)) (calls w) (logs w)).
Proof.
  intros Hl d d'. unfold prepare.
  destruct (decide ("v1" = "v1")) as [_ | ?]; [| done].
  rewrite bind_load. fold d.
  assert (default ∅ (<[l := d']> (heap w) !! l) = d') as Hd'.
  { by rewrite list_lookup_insert_eq. }
  unfold d' in *.
  destruct (truthy (dict_get d "notify"));
    rewrite bind_setitem, bind_load; fold d; cbn [heap]; rewrite Hd';
    reflexivity.
Qed.

Lemma prepare_v2 k m l w :
  prepare "v2" k m l w
  = (Ret (Some ({["Authorization" := "Bearer " +:+ py_str k]}, ∅,
                JsonText (json_dumps (default ∅ (heap w !! l))))), w).
Proof. reflexivity. Qed.

(** ** Calling the transport *)

Section Execute.
Variable tr : request -> outcome response.

Lemma execute_refused rid ver f m url h q b w :
  tr (Request m url h q b true) = Raise ConnectionError ->
  execute tr rid ver f m url h q b w
  = (Ret PFalse,
     World (heap w) (calls w ++ [Request m url h q b true])
       (logs w ++ [(ERROR, LExn ConnectionError)])).
Proof. intros E. unfold execute, try_except, bind, send. by rewrite E. Qed.

Lemma execute_escapes rid ver f m url h q b w e :
  tr (Request m url h q b true) = Raise e ->
  e <> ConnectionError ->
  execute tr rid ver f m url h q b w
  = (Raise e, World (heap w) (calls w ++ [Request m url h q b true]) (logs w)).
Proof.
  intros E Hne. unfold execute, try_except, bind, send. rewrite E.
  by destruct e.
Qed.

Lemma execute_answered rid ver f m url h q b w r :
  tr (Request m url h q b true) = Ret r ->
  execute tr rid ver f m url h q b w
  = interpret rid ver f url q b r
      (World (heap w) (calls w ++ [Request m url h q b true]) (logs w)).
Proof. intros E. unfold execute, try_except, bind, send. by rewrite E. Qed.

Lemma interpret_effects rid ver f url q b r w :
  let w' := snd (interpret rid ver f url q b r w) in
  calls w' = calls w /\ heap w' = heap w.
Proof.
  unfold interpret, response_json.
  destruct (status_code r =? 200).
  { destruct (json r) as [v |]; [| done].
    by destruct (lookup_descriptor rid ver f) as [[o |] | ?]. }
  destruct (status_code r =? 204); [done |].
  destruct (json r) as [v |]; [| done].
  unfold bind, lift, ret, log; cbv beta iota.
  destruct (py_get v (Some "error")) as [x | ?]; [| done].
  by destruct (py_truthy x).
Qed.

(** Whatever the transport does, the request has been handed to it, once,
    and no dictionary has changed. *)
Lemma execute_effects rid ver f m url h q b w :
  let w' := snd (execute tr rid ver f m url h q b w) in
  calls w' = (calls w ++ [Request m url h q b true]) /\ heap w' = heap w.
Proof.
  destruct (tr (Request m url h q b true)) as [r | e] eqn:E.
  - rewrite (execute_answered _ _ _ _ _ _ _ _ _ _ E).
    apply (interpret_effects rid ver f url q b r
             (World (heap w) (calls w ++ [Request m url h q b true]) (logs w))).
  - destruct (decide (e = ConnectionError)) as [-> | Hne].
    + by rewrite (execute_refused _ _ _ _ _ _ _ _ _ E).
    + by rewrite (execute_escapes _ _ _ _ _ _ _ _ _ _ E Hne).
Qed.

End Execute.

(** ** Runs of [_query] *)

Section Query.
Variable salt : salt_env.
Variable tr : request -> outcome response.
Variable uj : string -> string -> bool -> string.

Lemma credentials_explicit k v :
  truthy k = true -> truthy v = true -> credentials salt k v k v.
Proof. intros Hk Hv w. by apply resolve_explicit. Qed.

Lemma live_ref data w :
  live data w ->
  (data_ref data w < List.length (heap (data_world data w)))%nat.
Proof.
  destruct data as [l |]; cbn; [done |].
  rewrite length_app. cbn. lia.
Qed.

Lemma bind_enter {B} (data : option nat) (k : nat -> M B) w :
  bind (match data with None => alloc ∅ | Some l => ret l end) k w
  = k (data_ref data w) (data_world data w).
Proof. by destruct data. Qed.

Lemma query_unconfigured f k v m data w :
  truthy k = false \/ truthy v = false ->
  unconfigured salt ->
  _query salt tr uj f k v m data w
  = (Ret PFalse,
     World (heap (data_world data w)) (calls w)
       (logs w ++ [(ERROR, LText "No HipChat api key or version found.")])).
Proof.
  intros Hkv Hs. unfold _query.
  destruct data as [l |]; [rewrite bind_ret | rewrite bind_alloc];
    rewrite bind_load;
    erewrite bind_run by (by apply resolve_unconfigured);
    reflexivity.
Qed.

Lemma query_unsupported f k v k' ver m data w :
  credentials salt k v k' (SStr ver) ->
  ver <> "v1" -> ver <> "v2" ->
  _query salt tr uj f k v m data w = (Raise AttributeError, data_world data w).
Proof.
  intros Hc H1 H2. unfold _query.
  destruct data as [l |]; [rewrite bind_ret | rewrite bind_alloc];
    rewrite bind_load;
    erewrite bind_run by apply Hc; cbv beta iota;
    rewrite lookup_unsupported by done; reflexivity.
Qed.

Lemma query_no_version f k v k' a m data w :
  credentials salt k v k' a ->
  (forall s, a <> SStr s) ->
  _query salt tr uj f k v m data w = (Raise TypeError, data_world data w).
Proof.
  intros Hc Ha. unfold _query.
  destruct data as [l |]; [rewrite bind_ret | rewrite bind_alloc];
    rewrite bind_load;
    erewrite bind_run by apply Hc; cbv beta iota;
    destruct a; try reflexivity; by destruct (Ha s).
Qed.

Lemma query_v1 f k v k' m data w p e :
  credentials salt k v k' (SStr "v1") ->
  live data w ->
  let l := data_ref data w in
  let w1 := data_world data w in
  let d := default ∅ (heap w1 !! l) in
  let d' :=
    <["notify" := SInt (if truthy (dict_get d "notify") then 1 else 0)]> d in
  lookup_descriptor (room_id_of d) "v1" f = Ret (Some (Descriptor p e)) ->
  _query salt tr uj f k v m data w
  = execute tr (room_id_of d) "v1" f m (uj (uj api_url "v1/" true) p false)
      (if decide (m = "POST")
       then {["Content-Type" := "application/x-www-form-urlencoded"]}
       else ∅)
      (<["auth_token" := k']> {["format" := SStr "json"]})
      (FormData d')
      (World (<[l := d']> (heap w1)) (calls w1) (logs w1)).
Proof.
  intros Hc Hl l w1 d d' Hf. unfold _query.
  rewrite bind_enter, bind_load. fold l w1 d.
  erewrite bind_run by apply Hc. cbv beta iota.
  rewrite Hf, bind_lift_ret. cbn [descriptor_field request_path].
  rewrite bind_lift_ret.
  erewrite bind_run by (apply prepare_v1, live_ref, Hl).
  reflexivity.
Qed.

Lemma query_v2 f k v k' m data w p e :
  credentials salt k v k' (SStr "v2") ->
  let l := data_ref data w in
  let w1 := data_world data w in
  let d := default ∅ (heap w1 !! l) in
  lookup_descriptor (room_id_of d) "v2" f = Ret (Some (Descriptor p e)) ->
  _query salt tr uj f k v m data w
  = execute tr (room_id_of d) "v2" f m (uj (uj api_url "v2/" true) p false)
      {["Authorization" := "Bearer " +:+ py_str k']} ∅
      (JsonText (json_dumps d)) w1.
Proof.
  intros Hc l w1 d Hf. unfold _query.
  rewrite bind_enter, bind_load. fold l w1 d.
  erewrite bind_run by apply Hc. cbv beta iota.
  rewrite Hf, bind_lift_ret. cbn [descriptor_field request_path].
  rewrite bind_lift_ret.
  erewrite bind_run by apply prepare_v2.
  reflexivity.
Qed.

End Query.

(** ** Reading the answer *)

Lemma interpret_204 rid ver f url q b r w :
  status_code r = 204 -> interpret rid ver f url q b r w = (Ret PTrue, w).
Proof. intros E. unfold interpret. by rewrite E. Qed.

Lemma interpret_200 rid ver f url q b r w v p e :
  status_code r = 200 ->
  json r = Some v ->
  lookup_descriptor rid ver f = Ret (Some (Descriptor p e)) ->
  interpret rid ver f url q b r w = (py_get v e, w).
Proof.
  intros E Hj Hf. unfold interpret, response_json.
  apply Z.eqb_eq in E. rewrite E, Hj. cbv beta iota. by rewrite bind_ret, Hf.
Qed.

Lemma interpret_200_undecodable rid ver f url q b r w :
  status_code r = 200 ->
  json r = None ->
  interpret rid ver f url q b r w = (Raise ValueError, w).
Proof.
  intros E Hj. unfold interpret, response_json.
  apply Z.eqb_eq in E. by rewrite E, Hj.
Qed.

Lemma interpret_error rid ver f url q b r w d :
  status_code r <> 200 -> status_code r <> 204 ->
  json r = Some (PDict d) ->
  let context :=
    [(DEBUG, LText url); (DEBUG, LParams q); (DEBUG, LBody b);
     (DEBUG, LResponse r)] in
  interpret rid ver f url q b r w
  = (Ret PFalse,
     World (heap w) (calls w)
       (logs w ++ context ++
        if py_truthy (default PNone (assoc "error" d))
        then [(ERROR, LValue (PDict d))] else [])).
Proof.
  intros H200 H204 Hj context. unfold interpret, response_json.
  apply Z.eqb_neq in H200, H204. rewrite H200, H204, Hj. cbv beta iota.
  rewrite !bind_log, bind_ret. cbn [py_get]. rewrite bind_lift_ret.
  destruct (py_truthy _);
    unfold bind, log, ret; cbv beta iota; cbn [heap calls logs];
    rewrite <- ?app_assoc; cbn [app]; [done |].
  by rewrite app_nil_r.
Qed.

Lemma interpret_error_undecodable rid ver f url q b r w :
  status_code r <> 200 -> status_code r <> 204 ->
  json r = None ->
  interpret rid ver f url q b r w
  = (Raise ValueError,
     World (heap w) (calls w)
       (logs w ++ [(DEBUG, LText url); (DEBUG, LParams q); (DEBUG, LBody b);
                   (DEBUG, LResponse r)])).
Proof.
  intros H200 H204 Hj. unfold interpret, response_json.
  apply Z.eqb_neq in H200, H204. rewrite H200, H204, Hj. cbv beta iota.
  unfold bind, log, raise; cbv beta iota; cbn [heap calls logs].
  by rewrite <- !app_assoc.
Qed.

(** ** The search of [find_room] and [find_user] *)

Lemma named_item r name :
  named r name -> py_item r "name" = Ret (Atom (SStr name)).
Proof. intros (d & -> & E). cbn. by rewrite E. Qed.

Lemma has_name_item r name :
  has_name r ->
  exists field, py_item r "name" = Ret field
    /\ (py_eq_str field name = true <-> named r name).
Proof.
  intros (d & field & -> & E). exists field. cbn. rewrite E. split; [done |].
  unfold named. split.
  - intros Hq. destruct field as [[| | | s] | |]; try done.
    cbn in Hq. apply String.eqb_eq in Hq as ->. eauto.
  - intros (d' & [= <-] & E'). rewrite E in E'. injection E' as ->.
    cbn. apply String.eqb_refl.
Qed.

Lemma scan_list name (pre rest : list pyval) :
  Forall has_name rest ->
  (exists before r after,
      rest = before ++ r :: after
      /\ Forall (fun x => ~ named x name) before
      /\ named r name
      /\ scan (PList (pre ++ rest)) name (seq (List.length pre) (List.length rest))
         = Ret (Some r))
  \/ (Forall (fun x => ~ named x name) rest
      /\ scan (PList (pre ++ rest)) name (seq (List.length pre) (List.length rest))
         = Ret None).
Proof.
  intros Hall. revert pre.
  induction Hall as [| r rest Hr Hrest IH]; intros pre.
  - right. by split.
  - cbn [List.length seq scan py_index].
    assert ((pre ++ r :: rest) !! List.length pre = Some r) as ->.
    { by rewrite list_lookup_middle. }
    destruct (has_name_item r name Hr) as (field & -> & Hfield).
    destruct (py_eq_str field name) eqn:Hq.
    + left. exists [], r, rest. split; [done |]. split; [constructor |].
      split; [by apply Hfield | done].
    + assert (~ named r name) as Hno.
      { intros Hn. apply Hfield in Hn. congruence. }
      specialize (IH (pre ++ [r])).
      rewrite <- app_assoc, length_app in IH. cbn [List.length app] in IH.
      replace (List.length pre + 1)%nat with (S (List.length pre)) in IH by lia.
      destruct IH as [(before & x & after & -> & Hb & Hx & E) | [Hn E]].
      * left. exists (r :: before), x, after. split; [done |].
        split; [by constructor |]. by split.
      * right. split; [by constructor | done].
Qed.

Lemma find_in_list name rooms w :
  Forall has_name rooms ->
  (exists before r after,
      rooms = before ++ r :: after
      /\ Forall (fun x => ~ named x name) before
      /\ named r name
      /\ find_in (PList rooms) name w = (Ret r, w))
  \/ (Forall (fun x => ~ named x name) rooms
      /\ find_in (PList rooms) name w = (Ret PFalse, w)).
Proof.
  intros Hall. unfold find_in. cbn [py_truthy py_len].
  destruct rooms as [| r0 rest].
  { right. by split. }
  rewrite bool_decide_eq_false_2 by done. cbn [negb].
  rewrite bind_lift_ret.
  destruct (scan_list name [] (r0 :: rest) Hall)
    as [(before & r & after & E & Hb & Hr & Hs) | [Hn Hs]];
    cbn [app List.length] in Hs |- *; rewrite Hs, bind_lift_ret.
  - left. exists before, r, after. by rewrite E.
  - right. by split.
Qed.

(** ** Unsupported versions *)

(** No supported version, no request: the table look-up of line 102 fails
    before anything is sent, and before the branch of lines 119-121 that
    would log and return [False]. *)
Lemma unsupported_version_raises salt tr uj f k v k' ver m data w :
  credentials salt k v k' (SStr ver) ->
  ver <> "v1" -> ver <> "v2" ->
  let run := _query salt tr uj f k v m data w in
  fst run = Raise AttributeError
  /\ calls (snd run) = calls w
  /\ logs (snd run) = logs w.
Proof.
  intros Hc H1 H2 run. unfold run.
  rewrite (query_unsupported salt tr uj f k v k' ver m data w Hc H1 H2).
  by destruct data.
Qed.

(** C2, at [api_version='v3']: [_query] raises [AttributeError] where the
    claim has it return [False]; the transport is not invoked and nothing
    is logged. *)
Theorem query_v3_raises :
  let run :=
    _query SaltUnbound (answering 200 (Some (PDict []))) join_paths
      "rooms" (SStr "key") (SStr "v3") "GET" None world0 in
  fst run = Raise AttributeError /\ calls (snd run) = [] /\ logs (snd run) = [].
Proof. vm_compute. done. Qed.

(** ** Missing credentials *)

(** C3, with a [hipchat] option that is a mapping without the two keys:
    [list_rooms()] raises [TypeError] at line 101, where an unbound
    [__salt__] gives [False]; and with the version passed in and the key
    missing, the request goes out with [auth_token=None]. *)
Theorem missing_keys_not_absorbed :
  fst (list_rooms (configured ∅) (answering 200 (Some (PDict []))) join_paths
         SNone SNone world0)
  = Raise TypeError
  /\ fst (list_rooms SaltUnbound (answering 200 (Some (PDict []))) join_paths
            SNone SNone world0)
     = Ret PFalse
  /\ (exists req,
        calls (snd (list_rooms (configured ∅) (answering 200 (Some (PDict [])))
                      join_paths SNone (SStr "v1") world0)) = [req]
        /\ req_params req !! "auth_token" = Some SNone).
Proof.
  split; [by vm_compute |]. split; [by vm_compute |].
  eexists. split; [vm_compute; reflexivity |]. by vm_compute.
Qed.

(** The same for every [hipchat] mapping that gives no version string when
    none is passed in: [api_version + '/'] raises, nothing has been sent. *)
Lemma missing_version_raises d tr uj f k m data w :
  (forall s, dict_get d "api_version" <> SStr s) ->
  let run := _query (configured d) tr uj f k SNone m data w in
  fst run = Raise TypeError /\ calls (snd run) = calls w.
Proof.
  intros Hd run. unfold run.
  erewrite query_no_version; [by destruct data | | exact Hd].
  intros w0. apply (resolve_configured d k SNone w0). by right.
Qed.

(** With no mapping to read the credentials from, [_query] returns [False]
    and the transport is never invoked. *)
Lemma unconfigured_absorbed salt tr uj f k v m data w :
  truthy k = false \/ truthy v = false ->
  unconfigured salt ->
  let run := _query salt tr uj f k v m data w in
  fst run = Ret PFalse /\ calls (snd run) = calls w.
Proof.
  intros Hkv Hs run. unfold run.
  by rewrite (query_unconfigured salt tr uj f k v m data w Hkv Hs).
Qed.

(** ** The dictionary of [send_message] *)

Lemma insert_last {A} (h : list A) (x y : A) :
  <[List.length h := x]> (h ++ [y]) = h ++ [x].
Proof. rewrite insert_app_r_alt by lia. by rewrite Nat.sub_diag. Qed.

Lemma lookup_last {A} (h : list A) (y : A) :
  (h ++ [y]) !! List.length h = Some y.
Proof. by rewrite list_lookup_middle. Qed.

Lemma send_message_run salt tr uj room_id message from_name k v color notify w :
  send_message salt tr uj room_id message from_name k v color notify w
  = bind (_query salt tr uj "message" k v "POST" (Some (List.length (heap w))))
      (fun result => if py_truthy result then ret PTrue else ret PFalse)
      (World (heap w ++ [message_parameters room_id message from_name color notify])
         (calls w) (logs w)).
Proof.
  unfold send_message. rewrite bind_alloc, !bind_setitem. cbn [heap calls logs].
  repeat first [rewrite insert_last | rewrite lookup_last].
  reflexivity.
Qed.

(** ** Supported versions: what the operations do with an answer *)

Lemma lookup_supported rid ver f :
  supported ver -> known f ->
  exists p e, lookup_descriptor rid ver f = Ret (Some (Descriptor p e)).
Proof.
  intros [-> | ->] Hf.
  - destruct (lookup_known_v1 rid f Hf) as (p & e & E). eauto.
  - by apply lookup_known_v2.
Qed.

Lemma lookup_found rid ver f o :
  lookup_descriptor rid ver f = Ret o -> supported ver.
Proof.
  intros E. unfold supported.
  destruct (decide (ver = "v1")) as [| H1]; [by left |].
  destruct (decide (ver = "v2")) as [| H2]; [by right |].
  by rewrite lookup_unsupported in E.
Qed.

Lemma room_id_of_empty : room_id_of ∅ = "0".
Proof. reflexivity. Qed.

Lemma fresh_dict w :
  default ∅ (heap (data_world None w) !! data_ref None w) = ∅.
Proof. cbn. by rewrite list_lookup_middle. Qed.

Section Answers.
Variable salt : salt_env.
Variable tr : request -> outcome response.
Variable uj : string -> string -> bool -> string.

(** With a supported version and a known operation the request is built
    and handed to the transport. *)
Lemma query_supported f k v k' ver m data w p e :
  credentials salt k v k' (SStr ver) ->
  live data w ->
  let d := default ∅ (heap (data_world data w) !! data_ref data w) in
  lookup_descriptor (room_id_of d) ver f = Ret (Some (Descriptor p e)) ->
  exists h q b w1,
    _query salt tr uj f k v m data w
    = execute tr (room_id_of d) ver f m
        (uj (uj api_url (ver +:+ "/") true) p false) h q b w1
    /\ calls w1 = calls w.
Proof.
  intros Hc Hl d Hf.
  destruct (lookup_found _ _ _ _ Hf) as [-> | ->].
  - eexists _, _, _, _. split.
    + by apply (query_v1 salt tr uj f k v k' m data w p e).
    + by destruct data.
  - eexists _, _, _, _. split.
    + by apply (query_v2 salt tr uj f k v k' m data w p e).
    + by destruct data.
Qed.

Lemma query_refused f k v k' ver m data w :
  credentials salt k v k' (SStr ver) -> supported ver ->
  known f -> live data w ->
  (forall req, tr req = Raise ConnectionError) ->
  exists w', _query salt tr uj f k v m data w = (Ret PFalse, w').
Proof.
  intros Hc Hv Hf Hl Htr.
  destruct (lookup_supported
              (room_id_of (default ∅ (heap (data_world data w) !! data_ref data w)))
              ver f Hv Hf) as (p & e & E).
  destruct (query_supported f k v k' ver m data w p e Hc Hl E)
    as (h & q & b & w1 & -> & _).
  rewrite execute_refused by apply Htr. eauto.
Qed.

Lemma query_http_error f k v k' ver m data w :
  credentials salt k v k' (SStr ver) -> supported ver ->
  known f -> live data w ->
  (forall req, exists status d,
      tr req = Ret (Response status (Some (PDict d)))
      /\ status <> 200 /\ status <> 204) ->
  exists w', _query salt tr uj f k v m data w = (Ret PFalse, w').
Proof.
  intros Hc Hv Hf Hl Htr.
  destruct (lookup_supported
              (room_id_of (default ∅ (heap (data_world data w) !! data_ref data w)))
              ver f Hv Hf) as (p & e & E).
  destruct (query_supported f k v k' ver m data w p e Hc Hl E)
    as (h & q & b & w1 & -> & _).
  match goal with
  | |- context [execute tr ?rid _ _ _ ?url _ _ _ _] =>
      destruct (Htr (Request m url h q b true)) as (st & d & Ha & H200 & H204)
  end.
  rewrite (execute_answered tr _ _ _ _ _ _ _ _ _ _ Ha).
  rewrite (interpret_error _ _ _ _ _ _ _ _ d) by done. eauto.
Qed.

Lemma query_decode_error f k v k' ver m data w :
  credentials salt k v k' (SStr ver) -> supported ver ->
  known f -> live data w ->
  (forall req, tr req = Ret (Response 200 None)) ->
  exists w', _query salt tr uj f k v m data w = (Raise ValueError, w').
Proof.
  intros Hc Hv Hf Hl Htr.
  destruct (lookup_supported
              (room_id_of (default ∅ (heap (data_world data w) !! data_ref data w)))
              ver f Hv Hf) as (p & e & E).
  destruct (query_supported f k v k' ver m data w p e Hc Hl E)
    as (h & q & b & w1 & -> & _).
  rewrite (execute_answered tr _ _ _ _ _ _ _ _ _ _ (Htr _)).
  rewrite interpret_200_undecodable by done. eauto.
Qed.

(** A listing answered with status 200 and a JSON object: the member under
    the envelope key, [None] when there is none. *)
Lemma query_listing f k v k' ver w p key body :
  credentials salt k v k' (SStr ver) ->
  lookup_descriptor "0" ver f = Ret (Some (Descriptor p (Some key))) ->
  (forall req, tr req = Ret (Response 200 (Some (PDict body)))) ->
  exists w',
    _query salt tr uj f k v "GET" None w
    = (Ret (default PNone (assoc key body)), w').
Proof.
  intros Hc Hf Htr.
  assert (live None w) as Hl by done.
  pose proof (query_supported f k v k' ver "GET" None w p (Some key) Hc Hl) as Hq.
  cbv zeta in Hq. rewrite fresh_dict, room_id_of_empty in Hq.
  destruct (Hq Hf) as (h & q & b & w1 & -> & _).
  rewrite (execute_answered tr _ _ _ _ _ _ _ _ _ _ (Htr _)).
  erewrite interpret_200; [| done | done | exact Hf]. eauto.
Qed.

(** Every public operation is one call of [_query], on a known operation
    name and a live dictionary, followed by a step that maps [False] to
    [False]. *)
Lemma call_via_query op k v w :
  exists f m data w0 (post : pyval -> M pyval),
    known f /\ live data w0 /\ calls w0 = calls w
    /\ call salt tr uj op k v w
       = bind (_query salt tr uj f k v m data) post w0
    /\ (forall w', post PFalse w' = (Ret PFalse, w')).
Proof.
  destruct op as [| | name | name | room_id message from_name color notify].
  - exists "rooms", "GET", None, w, ret. unfold known. split_and!; try done; auto.
    cbn [call]. unfold list_rooms, bind.
    by destruct (_query salt tr uj "rooms" k v "GET" None w) as [[] ?].
  - exists "users", "GET", None, w, ret. unfold known. split_and!; try done; auto.
    cbn [call]. unfold list_users, bind.
    by destruct (_query salt tr uj "users" k v "GET" None w) as [[] ?].
  - exists "rooms", "GET", None, w, (fun rooms => find_in rooms name).
    unfold known. split_and!; try done; auto.
  - exists "users", "GET", None, w, (fun users => find_in users name).
    unfold known. split_and!; try done; auto.
  - exists "message", "POST", (Some (List.length (heap w))),
      (World (heap w ++ [message_parameters room_id message from_name color notify])
         (calls w) (logs w)),
      (fun result => if py_truthy result then ret PTrue else ret PFalse).
    split_and!; try done.
    + right. by right.
    + cbn. rewrite length_app. cbn. lia.
    + apply send_message_run.
Qed.

End Answers.

(** ** C1: failures at the boundary of the operations *)

(** C1 as stated fails: a status 200 whose body is not JSON makes
    [list_rooms] raise [ValueError]. *)
Lemma list_rooms_decode_error_escapes :
  fst (list_rooms SaltUnbound (answering 200 None) join_paths
         (SStr "key") (SStr "v1") world0)
  = Raise ValueError.
Proof. by vm_compute. Qed.

(** C1, amended: a missing credential met by the handler of lines 96-98, a
    [ConnectionError], a status other than 200 and 204 with a JSON object
    as body and a name that is not listed make every public operation
    return [False]; a status 200 with a body that is not JSON makes it
    raise [ValueError]. *)
Theorem failures_at_the_boundary salt tr uj op k v o w :
  failure salt tr k v op o ->
  fst (call salt tr uj op k v w) = o.
Proof.
  intros Hfail.
  destruct (call_via_query salt tr uj op k v w)
    as (f & m & data & w0 & post & Hf & Hl & _ & Hq & Hpost).
  inversion Hfail as
    [ op' Hkv Hs | op' k' ver Hc Hv Htr | op' k' ver Hc Hv Htr
    | op' k' ver fn name p key body records Hc Hop Hd Htr Hkey Hall Hnone
    | op' k' ver Hc Hv Htr ]; subst.
  - rewrite Hq.
    erewrite bind_run by (by apply query_unconfigured). by rewrite Hpost.
  - destruct (query_refused salt tr uj f k v k' ver m data w0 Hc Hv Hf Hl Htr)
      as [w' E].
    rewrite Hq. erewrite bind_run by exact E. by rewrite Hpost.
  - destruct (query_http_error salt tr uj f k v k' ver m data w0 Hc Hv Hf Hl Htr)
      as [w' E].
    rewrite Hq. erewrite bind_run by exact E. by rewrite Hpost.
  - clear Hfail Hpost Hf Hl Hq.
    destruct (query_listing salt tr uj fn k v k' ver w p key body Hc Hd Htr)
      as [w' E].
    rewrite Hkey in E.
    change (default PNone (Some (PList records))) with (PList records) in E.
    assert (call salt tr uj op k v w
            = bind (_query salt tr uj fn k v "GET" None)
                (fun rooms => find_in rooms name) w) as Hcall.
    { destruct op; try done; by injection Hop as <- <-. }
    rewrite Hcall. erewrite bind_run by exact E. cbv beta.
      destruct (find_in_list name records w' Hall)
        as [(before & r & after & -> & _ & Hr & _) | [_ ->]]; [| done].
    apply Forall_app in Hnone as [_ Hnone].
    by inversion Hnone.
  - destruct (query_decode_error salt tr uj f k v k' ver m data w0 Hc Hv Hf Hl Htr)
      as [w' E].
    rewrite Hq. by erewrite bind_fail by exact E.
Qed.

Lemma failures_at_the_boundary_witness :
  failure SaltUnbound (failing ConnectionError) (SStr "key") (SStr "v2")
    (FindRoom "Dev") (Ret PFalse)
  /\ fst (call SaltUnbound (failing ConnectionError) join_paths
            (FindRoom "Dev") (SStr "key") (SStr "v2") world0)
     = Ret PFalse.
Proof.
  assert (failure SaltUnbound (failing ConnectionError) (SStr "key") (SStr "v2")
            (FindRoom "Dev") (Ret PFalse)) as H.
  { apply (TransportError _ _ _ _ _ (SStr "key") "v2").
    - intros w. reflexivity.
    - right. reflexivity.
    - intros req. reflexivity. }
  split; [exact H |].
  exact (failures_at_the_boundary _ _ join_paths _ _ _ _ world0 H).
Defined.

(** ** C4: a status other than 200 and 204 *)

(** C4 as stated fails: with status 500 and a body that is not JSON,
    [result.json()] at line 147 raises and [list_rooms] does not return. *)
Lemma error_status_undecodable_raises :
  fst (list_rooms SaltUnbound (answering 500 None) join_paths
         (SStr "key") (SStr "v1") world0)
  = Raise ValueError.
Proof. by vm_compute. Qed.

(** C4, amended: on a status other than 200 and 204 the interpreter logs
    the four debug records (URL, query parameters, body, response).  When
    the body is a JSON object it then logs the decoded body at error level
    if, and only if, the [error] member of the body is truthy, and returns
    [False]; when the body is not JSON it raises [ValueError] after the
    four records.  Nothing else changes. *)
Theorem interpret_error_status rid ver f url q b r w :
  status_code r <> 200 -> status_code r <> 204 ->
  let context :=
    [(DEBUG, LText url); (DEBUG, LParams q); (DEBUG, LBody b);
     (DEBUG, LResponse r)] in
  (forall d, json r = Some (PDict d) ->
     interpret rid ver f url q b r w
     = (Ret PFalse,
        World (heap w) (calls w)
          (logs w ++ context ++
           if py_truthy (default PNone (assoc "error" d))
           then [(ERROR, LValue (PDict d))] else [])))
  /\ (json r = None ->
      interpret rid ver f url q b r w
      = (Raise ValueError, World (heap w) (calls w) (logs w ++ context))).
Proof.
  intros H200 H204 context. split.
  - intros d Hj. by apply interpret_error.
  - intros Hj. by apply interpret_error_undecodable.
Qed.

Lemma interpret_error_status_witness :
  let body := PDict [("error", Atom (SStr "bad token"))] in
  let context r :=
    [(DEBUG, LText "u"); (DEBUG, LParams ∅); (DEBUG, LBody (FormData ∅));
     (DEBUG, LResponse r)] in
  (500 <> 200 /\ 500 <> 204)
  /\ interpret "0" "v1" "rooms" "u" ∅ (FormData ∅) (Response 500 (Some body))
       world0
     = (Ret PFalse,
        World [] [] (context (Response 500 (Some body)) ++ [(ERROR, LValue body)]))
  /\ interpret "0" "v1" "rooms" "u" ∅ (FormData ∅)
       (Response 500 (Some (PDict []))) world0
     = (Ret PFalse, World [] [] (context (Response 500 (Some (PDict [])))))
  /\ interpret "0" "v1" "rooms" "u" ∅ (FormData ∅) (Response 500 None) world0
     = (Raise ValueError, World [] [] (context (Response 500 None))).
Proof.
  intros body context.
  split; [split; discriminate |]. split_and!.
  - refine (proj1 (interpret_error_status "0" "v1" "rooms" "u" ∅ (FormData ∅)
                     (Response 500 (Some body)) world0 _ _)
              [("error", Atom (SStr "bad token"))] eq_refl); discriminate.
  - refine (proj1 (interpret_error_status "0" "v1" "rooms" "u" ∅ (FormData ∅)
                     (Response 500 (Some (PDict []))) world0 _ _)
              [] eq_refl); discriminate.
  - refine (proj2 (interpret_error_status "0" "v1" "rooms" "u" ∅ (FormData ∅)
                     (Response 500 None) world0 _ _) eq_refl); discriminate.
Defined.

(** ** C5: status 200 and status 204 *)

Section Success.
Variable salt : salt_env.
Variable tr : request -> outcome response.
Variable uj : string -> string -> bool -> string.

Lemma query_no_content f k v k' ver m data w :
  credentials salt k v k' (SStr ver) -> supported ver ->
  known f -> live data w ->
  (forall req, exists j, tr req = Ret (Response 204 j)) ->
  exists w', _query salt tr uj f k v m data w = (Ret PTrue, w').
Proof.
  intros Hc Hv Hf Hl Htr.
  destruct (lookup_supported
              (room_id_of (default ∅ (heap (data_world data w) !! data_ref data w)))
              ver f Hv Hf) as (p & e & E).
  destruct (query_supported salt tr uj f k v k' ver m data w p e Hc Hl E)
    as (h & q & b & w1 & -> & _).
  match goal with
  | |- context [execute tr ?rid _ _ _ ?url _ _ _ _] =>
      destruct (Htr (Request m url h q b true)) as (j & Ha)
  end.
  rewrite (execute_answered tr _ _ _ _ _ _ _ _ _ _ Ha).
  rewrite interpret_204 by done. eauto.
Qed.

Lemma query_message_v2_ok k v k' m data w :
  credentials salt k v k' (SStr "v2") -> live data w ->
  (forall req, exists d, tr req = Ret (Response 200 (Some (PDict d)))) ->
  exists w', _query salt tr uj "message" k v m data w = (Ret PNone, w').
Proof.
  intros Hc Hl Htr.
  destruct (query_supported salt tr uj "message" k v k' "v2" m data w _ _ Hc Hl
              (lookup_message_v2 _))
    as (h & q & b & w1 & -> & _).
  match goal with
  | |- context [execute tr ?rid _ _ _ ?url _ _ _ _] =>
      destruct (Htr (Request m url h q b true)) as (d & Ha)
  end.
  rewrite (execute_answered tr _ _ _ _ _ _ _ _ _ _ Ha).
  erewrite interpret_200; [| done | done | apply lookup_message_v2]. eauto.
Qed.

End Success.

(** C5 as stated fails: [send_message] under v2, answered with status 200
    and the body [{}], returns [False]; answered with status 200 and a
    body that is not JSON, it raises, so the body is decoded. *)
Lemma v2_message_200_is_no_success :
  fst (send_message SaltUnbound (answering 200 (Some (PDict []))) join_paths
         (SInt 7) "Build is done" "Build Server" (SStr "key") (SStr "v2")
         (SStr "yellow") (SBool false) world0)
  = Ret PFalse
  /\ fst (send_message SaltUnbound (answering 200 None) join_paths
            (SInt 7) "Build is done" "Build Server" (SStr "key") (SStr "v2")
            (SStr "yellow") (SBool false) world0)
     = Raise ValueError.
Proof. split; by vm_compute. Qed.

(** C5, amended: a status 204 makes [_query] return [True] for every
    operation and supported version, whatever the body.  A status 200 on
    the v2 [message] operation has its body decoded: [_query] returns
    [None], the member under the absent key, when the body is a JSON
    object, and [send_message] then returns [False]. *)
Theorem status_alone salt tr uj k v k' ver :
  credentials salt k v k' (SStr ver) ->
  ((forall req, exists j, tr req = Ret (Response 204 j)) ->
   supported ver ->
   forall f m data w, known f -> live data w ->
     fst (_query salt tr uj f k v m data w) = Ret PTrue)
  /\ ((forall req, exists d, tr req = Ret (Response 200 (Some (PDict d)))) ->
      ver = "v2" ->
      (forall m data w, live data w ->
         fst (_query salt tr uj "message" k v m data w) = Ret PNone)
      /\ (forall room_id message from_name color notify w,
            fst (send_message salt tr uj room_id message from_name k v
                   color notify w) = Ret PFalse)).
Proof.
  intros Hc. split.
  - intros Htr Hv f m data w Hf Hl.
    destruct (query_no_content salt tr uj f k v k' ver m data w Hc Hv Hf Hl Htr)
      as [w' ->].
    done.
  - intros Htr ->. split.
    + intros m data w Hl.
      by destruct (query_message_v2_ok salt tr uj k v k' m data w Hc Hl Htr)
        as [w' ->].
    + intros room_id message from_name color notify w.
      rewrite send_message_run.
      match goal with
      | |- context [bind (_query _ _ _ _ _ _ ?m ?data) _ ?w0] =>
          destruct (query_message_v2_ok salt tr uj k v k' m data w0 Hc) as [w' E]
      end.
      * cbn. rewrite length_app. cbn. lia.
      * exact Htr.
      * erewrite bind_run by exact E. done.
Qed.

Lemma status_alone_witness :
  credentials SaltUnbound (SStr "key") (SStr "v2") (SStr "key") (SStr "v2")
  /\ fst (_query SaltUnbound (answering 204 None) join_paths
            "rooms" (SStr "key") (SStr "v2") "GET" None world0)
     = Ret PTrue
  /\ fst (send_message SaltUnbound (answering 200 (Some (PDict []))) join_paths
            (SInt 7) "Build is done" "Build Server" (SStr "key") (SStr "v2")
            (SStr "yellow") (SBool false) world0)
     = Ret PFalse.
Proof.
  assert (credentials SaltUnbound (SStr "key") (SStr "v2") (SStr "key") (SStr "v2"))
    as Hc by (intros w; reflexivity).
  split; [exact Hc |]. split.
  - refine (proj1 (status_alone SaltUnbound (answering 204 None) join_paths
                     _ _ _ _ Hc) _ _ "rooms" "GET" None world0 _ I).
    + intros req. by exists None.
    + by right.
    + by left.
  - refine (proj2 (proj2 (status_alone SaltUnbound
                            (answering 200 (Some (PDict []))) join_paths
                            _ _ _ _ Hc) _ eq_refl) _ _ _ _ _ world0).
    intros req. by exists [].
Defined.

(** ** What reaches the transport *)

Lemma resolve_effects salt k v w :
  let w' := snd (resolve salt k v w) in
  heap w' = heap w /\ calls w' = calls w.
Proof.
  unfold resolve.
  destruct (negb (truthy k) || negb (truthy v)); [| by split].
  unfold try_except, config_option, options_get, bind, ret, raise.
  destruct salt as [| | c]; cbv beta iota zeta; [by split | by split |].
  by destruct (c "hipchat"), (truthy k), (truthy v).
Qed.

Lemma bind_pure {A B} (m : M A) (post : A -> M B) w :
  (forall a w', snd (post a w') = w') ->
  snd (bind m post w) = snd (m w).
Proof. intros Hp. unfold bind. destruct (m w) as [[a | e] w']; [apply Hp | done]. Qed.

Section Sent.
Variable salt : salt_env.
Variable tr : request -> outcome response.
Variable uj : string -> string -> bool -> string.

(** With the version v1 the dictionary is updated in place and sent as
    it then is; the transport is invoked once. *)
Lemma query_v1_effects f k v k' m data w :
  credentials salt k v k' (SStr "v1") ->
  known f -> live data w ->
  let l := data_ref data w in
  let d := default ∅ (heap (data_world data w) !! l) in
  let w' := snd (_query salt tr uj f k v m data w) in
  heap w' = <[l := <["notify" := notify_flag d]> d]> (heap (data_world data w))
  /\ exists req,
       calls w' = calls w ++ [req]
       /\ req_method req = m
       /\ req_data req = FormData (<["notify" := notify_flag d]> d).
Proof.
  intros Hc Hf Hl l d w'. unfold w'.
  destruct (lookup_known_v1 (room_id_of d) f Hf) as (p & e & E).
  rewrite (query_v1 salt tr uj f k v k' m data w p (Some e) Hc Hl E).
  match goal with
  | |- context [execute tr ?rid ?ver ?f ?m ?url ?h ?q ?b ?w0] =>
      destruct (execute_effects tr rid ver f m url h q b w0) as [-> ->]
  end.
  assert (calls (data_world data w) = calls w) as Hcw by (by destruct data).
  split; [done |]. eexists. cbn [calls]. rewrite Hcw. by split_and!.
Qed.

(** With the version v2 the dictionary is serialised and left alone. *)
Lemma query_v2_effects f k v k' m data w :
  credentials salt k v k' (SStr "v2") ->
  known f ->
  let l := data_ref data w in
  let d := default ∅ (heap (data_world data w) !! l) in
  let w' := snd (_query salt tr uj f k v m data w) in
  heap w' = heap (data_world data w)
  /\ exists req p e,
       calls w' = calls w ++ [req]
       /\ lookup_descriptor (room_id_of d) "v2" f = Ret (Some (Descriptor p e))
       /\ req_url req = uj (uj api_url "v2/" true) p false
       /\ req_data req = JsonText (json_dumps d).
Proof.
  intros Hc Hf l d w'. unfold w'.
  destruct (lookup_known_v2 (room_id_of d) f Hf) as (p & e & E).
  rewrite (query_v2 salt tr uj f k v k' m data w p e Hc E).
  match goal with
  | |- context [execute tr ?rid ?ver ?f ?m ?url ?h ?q ?b ?w0] =>
      destruct (execute_effects tr rid ver f m url h q b w0) as [-> ->]
  end.
  assert (calls (data_world data w) = calls w) as Hcw by (by destruct data).
  split; [done |]. eexists _, p, e. rewrite Hcw. by split_and!.
Qed.

(** Whatever the credentials and the transport: at most one request, and
    its body is the dictionary, with [notify] rewritten or serialised. *)
Lemma query_sends f k v m data w :
  live data w ->
  let d := default ∅ (heap (data_world data w) !! data_ref data w) in
  exists sent,
    calls (snd (_query salt tr uj f k v m data w)) = calls w ++ sent
    /\ (sent = []
        \/ exists req,
             sent = [req]
             /\ (req_data req = FormData (<["notify" := notify_flag d]> d)
                 \/ req_data req = JsonText (json_dumps d))).
Proof.
  intros Hl d. unfold _query.
  rewrite bind_enter, bind_load. fold d.
  pose proof (resolve_effects salt k v (data_world data w)) as [Hh Hcs].
  assert (calls (data_world data w) = calls w) as Hcw by (by destruct data).
  rewrite Hcw in Hcs. unfold bind at 1.
  destruct (resolve salt k v (data_world data w)) as [[[[k' a] |] | x] w2];
    cbn [snd] in Hh, Hcs; cbv beta iota;
    [| exists []; rewrite app_nil_r; cbn; auto ..].
  destruct a as [| | | ver];
    try (exists []; rewrite app_nil_r; cbn; by auto).
  destruct (lookup_descriptor (room_id_of d) ver f) as [[[p e] |] | x] eqn:E;
    try (exists []; rewrite app_nil_r; cbn; by auto).
  rewrite bind_lift_ret. cbn [descriptor_field request_path].
  rewrite bind_lift_ret.
  destruct (lookup_found _ _ _ _ E) as [-> | ->].
  - erewrite bind_run
      by (apply prepare_v1; rewrite Hh; apply live_ref, Hl).
    cbv beta iota.
    match goal with
    | |- context [execute tr ?rid ?ver ?f ?m ?url ?h ?q ?b ?w0] =>
        destruct (execute_effects tr rid ver f m url h q b w0) as [-> _]
    end.
    eexists. cbn [calls]. rewrite Hcs. split; [done |].
    right. eexists. split; [done |].
    left. cbn [req_data]. rewrite Hh. reflexivity.
  - erewrite bind_run by apply prepare_v2. cbv beta iota.
    match goal with
    | |- context [execute tr ?rid ?ver ?f ?m ?url ?h ?q ?b ?w0] =>
        destruct (execute_effects tr rid ver f m url h q b w0) as [-> _]
    end.
    eexists. rewrite Hcs. split; [done |].
    right. eexists. split; [done |].
    right. cbn [req_data]. rewrite Hh. reflexivity.
Qed.

End Sent.

(** ** C6: truncation in [send_message] *)

Lemma substring_length n s :
  (String.length (String.substring 0 n s) <= n)%nat.
Proof.
  revert s. induction n as [| n IH]; intros [| c s]; cbn; try lia.
  specialize (IH s). lia.
Qed.

Lemma substring_prefix n s :
  exists rest, s = String.substring 0 n s +:+ rest.
Proof.
  revert s. induction n as [| n IH]; intros [| c s]; cbn.
  - by exists "".
  - by exists (String c s).
  - by exists "".
  - destruct (IH s) as [rest E]. exists rest.
    change (String c s = String c (String.substring 0 n s +:+ rest)).
    congruence.
Qed.

Lemma substring_idem n s :
  String.substring 0 n (String.substring 0 n s) = String.substring 0 n s.
Proof.
  revert s. induction n as [| n IH]; intros [| c s]; cbn; try done.
  by rewrite IH.
Qed.

Lemma slice_to_length n s :
  0 <= n -> Z.of_nat (String.length (slice_to n s)) <= n.
Proof.
  intros Hn. unfold slice_to.
  pose proof (substring_length (Z.to_nat n) s). lia.
Qed.

Lemma parameters_from room_id message from_name color notify :
  message_parameters room_id message from_name color notify !! "from"
  = Some (SStr (slice_to 15 from_name)).
Proof. unfold message_parameters. by simplify_map_eq. Qed.

Lemma parameters_message room_id message from_name color notify :
  message_parameters room_id message from_name color notify !! "message"
  = Some (SStr (slice_to 10000 message)).
Proof. unfold message_parameters. by simplify_map_eq. Qed.

Lemma parameters_notify room_id message from_name color notify :
  message_parameters room_id message from_name color notify !! "notify"
  = Some notify.
Proof. unfold message_parameters. by simplify_map_eq. Qed.

Lemma parameters_room_id room_id message from_name color notify :
  message_parameters room_id message from_name color notify !! "room_id"
  = Some room_id.
Proof. unfold message_parameters. by simplify_map_eq. Qed.

(** A member other than [notify] is carried by both encodings of the
    body. *)
Lemma carried_member d key a b :
  d !! key = Some a -> key <> "notify" ->
  b = FormData (<["notify" := notify_flag d]> d) \/ b = JsonText (json_dumps d) ->
  carries b key a.
Proof.
  intros Hd Hk [-> | ->]; cbn.
  - by rewrite lookup_insert_ne.
  - unfold json_dumps. by rewrite lookup_fmap, Hd.
Qed.

Lemma send_message_sends salt tr uj room_id message from_name k v color notify w :
  let d := message_parameters room_id message from_name color notify in
  exists sent,
    calls (snd (send_message salt tr uj room_id message from_name k v
                  color notify w)) = calls w ++ sent
    /\ (sent = []
        \/ exists req,
             sent = [req]
             /\ (req_data req = FormData (<["notify" := notify_flag d]> d)
                 \/ req_data req = JsonText (json_dumps d))).
Proof.
  intros d. rewrite send_message_run.
  rewrite bind_pure by (intros a w'; by destruct (py_truthy a)).
  match goal with
  | |- context [_query salt tr uj ?f k v ?m ?data ?w0] =>
      pose proof (query_sends salt tr uj f k v m data w0) as Hq
  end.
  cbn [live data_world data_ref heap calls] in Hq.
  rewrite lookup_last in Hq. apply Hq.
  rewrite length_app. cbn. lia.
Qed.

(** ** C7: [notify] on the wire *)

(** C7: with a boolean under [notify] in the dictionary handed to
    [_query], the one request sent under v1 has a form body with the
    integer 1 for [True] and 0 for [False] under [notify], and the one
    sent under v2 has a JSON body with [true] or [false] there. *)
Theorem notify_on_the_wire salt tr uj f k v k' ver m l d (b : bool) w :
  credentials salt k v k' (SStr ver) ->
  known f ->
  heap w !! l = Some d ->
  d !! "notify" = Some (SBool b) ->
  let w' := snd (_query salt tr uj f k v m (Some l) w) in
  (ver = "v1" ->
   exists req form,
     calls w' = calls w ++ [req]
     /\ req_data req = FormData form
     /\ form !! "notify" = Some (SInt (if b then 1 else 0)))
  /\ (ver = "v2" ->
      exists req doc,
        calls w' = calls w ++ [req]
        /\ req_data req = JsonText doc
        /\ doc !! "notify" = Some (if b then JTrue else JFalse)).
Proof.
  intros Hc Hf Hl Hn w'.
  assert (live (Some l) w) as Hlive.
  { cbn. by eapply lookup_lt_Some. }
  split; intros ->.
  - destruct (query_v1_effects salt tr uj f k v k' m (Some l) w Hc Hf Hlive)
      as (_ & req & Hcalls & _ & Hdata).
    cbn [data_world data_ref] in Hdata. rewrite Hl in Hdata.
    change (default ∅ (Some d)) with d in Hdata.
    eexists req, _. split; [exact Hcalls |]. split; [exact Hdata |].
    rewrite lookup_insert_eq. unfold notify_flag, dict_get. rewrite Hn.
    by destruct b.
  - destruct (query_v2_effects salt tr uj f k v k' m (Some l) w Hc Hf)
      as (_ & req & p & e & Hcalls & _ & _ & Hdata).
    cbn [data_world data_ref] in Hdata. rewrite Hl in Hdata.
    change (default ∅ (Some d)) with d in Hdata.
    eexists req, _. split; [exact Hcalls |]. split; [exact Hdata |].
    unfold json_dumps. rewrite lookup_fmap, Hn. by destruct b.
Qed.

Lemma notify_on_the_wire_witness :
  let w := World [{["notify" := SBool true]}] [] [] in
  exists req form,
    calls (snd (_query SaltUnbound (answering 204 None) join_paths
                  "message" (SStr "key") (SStr "v1") "POST" (Some 0%nat) w))
    = calls w ++ [req]
    /\ req_data req = FormData form
    /\ form !! "notify" = Some (SInt 1).
Proof.
  intros w.
  refine (proj1 (notify_on_the_wire SaltUnbound (answering 204 None) join_paths
                   "message" (SStr "key") (SStr "v1") (SStr "key") "v1" "POST"
                   0%nat {["notify" := SBool true]} true w _ _ _ _) eq_refl).
  - intros w0. reflexivity.
  - right. right. reflexivity.
  - reflexivity.
  - reflexivity.
Defined.

(** The same through [send_message]. *)
Lemma send_message_notify salt tr uj room_id message from_name k v k' ver color
    (b : bool) w :
  credentials salt k v k' (SStr ver) -> supported ver ->
  exists req,
    calls (snd (send_message salt tr uj room_id message from_name k v
                  color (SBool b) w)) = calls w ++ [req]
    /\ carries (req_data req) "notify"
         (if decide (ver = "v1") then SInt (if b then 1 else 0) else SBool b).
Proof.
  intros Hc Hv. rewrite send_message_run.
  rewrite bind_pure by (intros a w'; by destruct (py_truthy a)).
  set (d := message_parameters room_id message from_name color (SBool b)).
  set (w0 := World (heap w ++ [d]) (calls w) (logs w)).
  assert (known "message") as Hf by (right; by right).
  assert (live (Some (List.length (heap w))) w0) as Hlive.
  { cbn. rewrite length_app. cbn. lia. }
  assert (default ∅ (heap w0 !! List.length (heap w)) = d) as Hd.
  { cbn. by rewrite lookup_last. }
  assert (d !! "notify" = Some (SBool b)) as Hn by apply parameters_notify.
  destruct Hv as [-> | ->].
  - destruct (query_v1_effects salt tr uj "message" k v k' "POST" _ w0 Hc Hf Hlive)
      as (_ & req & Hcalls & _ & Hdata).
    cbn [data_world data_ref] in Hdata. rewrite Hd in Hdata.
    exists req. split; [exact Hcalls |]. rewrite Hdata. cbn.
    rewrite lookup_insert_eq. unfold notify_flag, dict_get. rewrite Hn.
    by destruct b.
  - destruct (query_v2_effects salt tr uj "message" k v k' "POST"
                (Some (List.length (heap w))) w0 Hc Hf)
      as (_ & req & p & e & Hcalls & _ & _ & Hdata).
    cbn [data_world data_ref] in Hdata. rewrite Hd in Hdata.
    exists req. split; [exact Hcalls |]. rewrite Hdata. cbn.
    unfold json_dumps. by rewrite lookup_fmap, Hn.
Qed.

(** ** C9: the room of a v2 message *)

Lemma falsy_scalars a :
  truthy a = false <-> a = SNone \/ a = SBool false \/ a = SInt 0 \/ a = SStr "".
Proof.
  split.
  - destruct a as [| [] | z | s]; cbn; intros H; try done; auto.
    + apply negb_false_iff, Z.eqb_eq in H as ->. auto.
    + apply negb_false_iff, String.eqb_eq in H as ->. auto.
  - by intros [-> | [-> | [-> | ->]]].
Qed.

Lemma room_id_of_falsy d :
  truthy (dict_get d "room_id") = false -> room_id_of d = "0".
Proof. intros H. unfold room_id_of. by rewrite H. Qed.

(** C9: when [data.get('room_id')] is falsy, the key being absent or
    holding [None], [False], 0 or the empty string, the path of a v2
    [message] request is [room/0/notification]. *)
Theorem falsy_room_id_path salt tr uj k v k' m l d w :
  credentials salt k v k' (SStr "v2") ->
  heap w !! l = Some d ->
  d !! "room_id" = None
  \/ (exists a, d !! "room_id" = Some a
        /\ (a = SNone \/ a = SBool false \/ a = SInt 0 \/ a = SStr "")) ->
  lookup_descriptor (room_id_of d) "v2" "message"
  = Ret (Some (Descriptor "room/0/notification" None))
  /\ exists req,
       calls (snd (_query salt tr uj "message" k v m (Some l) w))
       = calls w ++ [req]
       /\ req_url req = uj (uj api_url "v2/" true) "room/0/notification" false.
Proof.
  intros Hc Hl Hroom.
  assert (truthy (dict_get d "room_id") = false) as Hfalsy.
  { unfold dict_get. destruct Hroom as [-> | (a & -> & Ha)]; [done |].
    by apply falsy_scalars. }
  assert (lookup_descriptor (room_id_of d) "v2" "message"
          = Ret (Some (Descriptor "room/0/notification" None))) as Hpath.
  { by rewrite (room_id_of_falsy d Hfalsy). }
  split; [exact Hpath |].
  assert (known "message") as Hf by (right; by right).
  destruct (query_v2_effects salt tr uj "message" k v k' m (Some l) w Hc Hf)
    as (_ & req & p & e & Hcalls & Hp & Hurl & _).
  cbn [data_world data_ref] in Hp. rewrite Hl in Hp.
  change (default ∅ (Some d)) with d in Hp.
  rewrite Hpath in Hp. injection Hp as <- <-.
  by exists req.
Qed.

Lemma falsy_room_id_path_witness :
  let w := World [{["room_id" := SInt 0]}] [] [] in
  exists req,
    calls (snd (_query SaltUnbound (answering 204 None) join_paths
                  "message" (SStr "key") (SStr "v2") "POST" (Some 0%nat) w))
    = calls w ++ [req]
    /\ req_url req = "https://api.hipchat.com/v2/room/0/notification".
Proof.
  intros w.
  refine (proj2 (falsy_room_id_path SaltUnbound (answering 204 None) join_paths
                   (SStr "key") (SStr "v2") (SStr "key") "POST"
                   0%nat {["room_id" := SInt 0]} w _ _ _)).
  - intros w0. reflexivity.
  - reflexivity.
  - right. exists (SInt 0). split; [reflexivity |]. right. right. left. reflexivity.
Defined.

(** A truthy [room_id] is written into the path with [str]. *)
Lemma truthy_room_id_path d :
  truthy (dict_get d "room_id") = true ->
  lookup_descriptor (room_id_of d) "v2" "message"
  = Ret (Some (Descriptor
                 ("room/" +:+ py_str (dict_get d "room_id") +:+ "/notification")
                 None)).
Proof. intros H. unfold room_id_of. by rewrite H. Qed.

(** ** C10: the [notify] entry under v1 *)

(** C10: under v1 [_query] writes [notify], as 1 or 0, into the dictionary
    it was given, in place, and sends the dictionary so updated, whatever
    the transport then does; without [data] the body of the request is the
    fresh dictionary with [notify] set to 0, and so it is in the GET
    requests of [list_rooms] and [list_users]. *)
Theorem v1_writes_notify salt tr uj k v k' w :
  credentials salt k v k' (SStr "v1") ->
  (forall f m l d,
     known f -> heap w !! l = Some d ->
     let w' := snd (_query salt tr uj f k v m (Some l) w) in
     let d' :=
       <["notify" := SInt (if truthy (dict_get d "notify") then 1 else 0)]> d in
     heap w' !! l = Some d'
     /\ (forall l', l' <> l -> heap w' !! l' = heap w !! l')
     /\ exists req, calls w' = calls w ++ [req] /\ req_data req = FormData d')
  /\ (forall f m,
        known f ->
        let w' := snd (_query salt tr uj f k v m None w) in
        heap w' = heap w ++ [{["notify" := SInt 0]}]
        /\ exists req,
             calls w' = calls w ++ [req]
             /\ req_method req = m
             /\ req_data req = FormData {["notify" := SInt 0]})
  /\ (exists req,
        calls (snd (list_rooms salt tr uj k v w)) = calls w ++ [req]
        /\ req_method req = "GET"
        /\ req_data req = FormData {["notify" := SInt 0]})
  /\ (exists req,
        calls (snd (list_users salt tr uj k v w)) = calls w ++ [req]
        /\ req_method req = "GET"
        /\ req_data req = FormData {["notify" := SInt 0]}).
Proof.
  intros Hc.
  assert (forall f m, known f ->
            let w' := snd (_query salt tr uj f k v m None w) in
            heap w' = heap w ++ [{["notify" := SInt 0]}]
            /\ exists req,
                 calls w' = calls w ++ [req]
                 /\ req_method req = m
                 /\ req_data req = FormData {["notify" := SInt 0]}) as Hfresh.
  { intros f m Hf w'.
    destruct (query_v1_effects salt tr uj f k v k' m None w Hc Hf I)
      as (Hheap & req & Hcalls & Hm & Hdata).
    rewrite fresh_dict in Hheap, Hdata.
    cbn [data_world data_ref heap] in Hheap.
    rewrite insert_last in Hheap.
    split; [exact Hheap |]. by exists req. }
  split_and!.
  - intros f m l d Hf Hl w' d'.
    assert (live (Some l) w) as Hlive.
    { cbn. by eapply lookup_lt_Some. }
    destruct (query_v1_effects salt tr uj f k v k' m (Some l) w Hc Hf Hlive)
      as (Hheap & req & Hcalls & _ & Hdata).
    cbn [data_world data_ref] in Hheap, Hdata. rewrite Hl in Hheap, Hdata.
    change (default ∅ (Some d)) with d in Hheap, Hdata.
    fold w' in Hheap, Hcalls. split_and!.
    + rewrite Hheap. by apply list_lookup_insert_eq.
    + intros l' Hne. rewrite Hheap. by apply list_lookup_insert_ne.
    + by exists req.
  - exact Hfresh.
  - apply (Hfresh "rooms" "GET"). by left.
  - apply (Hfresh "users" "GET"). right. by left.
Qed.

Lemma v1_writes_notify_witness :
  let l := 0%nat in
  let d : gmap string scalar := {["notify" := SBool true; "color" := SStr "red"]} in
  let w := World [d] [] [] in
  let w' :=
    snd (_query SaltUnbound (failing ConnectionError) join_paths
           "message" (SStr "key") (SStr "v1") "POST" (Some l) w) in
  heap w' !! l = Some (<["notify" := SInt 1]> d).
Proof.
  intros l d w w'.
  refine (proj1 (proj1 (v1_writes_notify SaltUnbound (failing ConnectionError)
                          join_paths (SStr "key") (SStr "v1") (SStr "key") w _)
                   "message" "POST" l d _ _)).
  - intros w0. reflexivity.
  - right. right. reflexivity.
  - reflexivity.
Defined.

(** ** C8: [find_room] and [find_user] *)

Lemma find_in_first name records w :
  Forall has_name records ->
  exists r, find_in (PList records) name w = (Ret r, w)
            /\ first_named name records r.
Proof.
  intros Hall.
  destruct (find_in_list name records w Hall)
    as [(before & r & after & E & Hb & Hr & Hfind) | [Hnone Hfind]].
  - exists r. split; [exact Hfind |]. left. by exists before, after.
  - exists PFalse. split; [exact Hfind |]. by right.
Qed.

(** C8: when the listing returns a list of records with a [name] field,
    [find_room] and [find_user] return the first record of the list whose
    [name] is the string looked for, whatever follows it, and [False] when
    no record has that name. *)
Theorem find_first_match salt tr uj name k v w records w1 :
  Forall has_name records ->
  (list_rooms salt tr uj k v w = (Ret (PList records), w1) ->
   exists r, find_room salt tr uj name k v w = (Ret r, w1)
             /\ first_named name records r)
  /\ (list_users salt tr uj k v w = (Ret (PList records), w1) ->
      exists r, find_user salt tr uj name k v w = (Ret r, w1)
                /\ first_named name records r).
Proof.
  intros Hall. split; intros Hlist.
  - unfold find_room. erewrite bind_run by exact Hlist.
    by apply find_in_first.
  - unfold find_user. erewrite bind_run by exact Hlist.
    by apply find_in_first.
Qed.

Lemma find_first_match_witness :
  let tr := answering 200 (Some two_rooms) in
  let records := [PDict [("name", Atom (SStr "Dev"))];
                  PDict [("name", Atom (SStr "Ops"))]] in
  Forall has_name records
  /\ exists r,
       fst (find_room SaltUnbound tr join_paths "Ops" (SStr "key") (SStr "v1")
              world0) = Ret r
       /\ first_named "Ops" records r.
Proof.
  intros tr records.
  assert (Forall has_name records) as Hall.
  { repeat constructor; eexists _, _; split; reflexivity. }
  split; [exact Hall |].
  destruct (proj1 (find_first_match SaltUnbound tr join_paths "Ops"
                     (SStr "key") (SStr "v1") world0 records
                     (snd (list_rooms SaltUnbound tr join_paths
                             (SStr "key") (SStr "v1") world0)) Hall))
    as (r & Hr & Hfirst).
  - vm_compute. reflexivity.
  - exists r. split; [by rewrite Hr | exact Hfirst].
Defined.

(** The example of the specification, and the exactness of the match: the
    case of the letters counts, and of two records with the same name the
    first is returned. *)
Lemma find_room_examples :
  let find body name :=
    fst (find_room SaltUnbound (answering 200 (Some body)) join_paths name
           (SStr "key") (SStr "v1") world0) in
  find two_rooms "Dev" = Ret (PDict [("name", Atom (SStr "Dev"))])
  /\ find two_rooms "QA" = Ret PFalse
  /\ find two_rooms "dev" = Ret PFalse
  /\ find (PDict [("rooms",
                   PList [PDict [("name", Atom (SStr "Dev")); ("id", Atom (SInt 1))];
                          PDict [("name", Atom (SStr "Dev")); ("id", Atom (SInt 2))]])])
       "Dev"
     = Ret (PDict [("name", Atom (SStr "Dev")); ("id", Atom (SInt 1))]).
Proof. intros find. split_and!; by vm_compute. Qed.

(** What the search does outside the data model: a record without a
    [name] field before the match raises [KeyError], and the [True] of a
    status 204 has no length. *)
Lemma find_room_outside_the_model :
  fst (find_room SaltUnbound
         (answering 200 (Some (PDict [("rooms", PList [PDict []])])))
         join_paths "Dev" (SStr "key") (SStr "v1") world0)
  = Raise KeyError
  /\ fst (find_room SaltUnbound (answering 204 None) join_paths "Dev"
            (SStr "key") (SStr "v1") world0)
     = Raise TypeError.
Proof. split; by vm_compute. Qed.

(** ** [send_message] with supported credentials *)

Lemma send_message_request salt tr uj room_id message from_name k v k' ver
    color notify w :
  credentials salt k v k' (SStr ver) -> supported ver ->
  let d := message_parameters room_id message from_name color notify in
  exists req,
    calls (snd (send_message salt tr uj room_id message from_name k v
                  color notify w)) = calls w ++ [req]
    /\ req_method req = "POST"
    /\ (req_data req = FormData (<["notify" := notify_flag d]> d)
        \/ req_data req = JsonText (json_dumps d)).
Proof.
  intros Hc Hv. cbv zeta.
  rewrite send_message_run.
  rewrite bind_pure by (intros a w'; by destruct (py_truthy a)).
  set (d := message_parameters room_id message from_name color notify).
  set (w0 := World (heap w ++ [d]) (calls w) (logs w)).
  assert (known "message") as Hf by (right; by right).
  assert (live (Some (List.length (heap w))) w0) as Hlive.
  { cbn. rewrite length_app. cbn. lia. }
  assert (default ∅ (heap w0 !! List.length (heap w)) = d) as Hd.
  { cbn. by rewrite lookup_last. }
  destruct Hv as [-> | ->].
  - destruct (query_v1_effects salt tr uj "message" k v k' "POST" _ w0 Hc Hf Hlive)
      as (_ & req & Hcalls & Hm & Hdata).
    cbn [data_world data_ref] in Hdata. rewrite Hd in Hdata.
    exists req. split; [exact Hcalls |]. split; [exact Hm |]. by left.
  - rewrite (query_v2 salt tr uj "message" k v k' "POST"
               (Some (List.length (heap w))) w0 _ _ Hc (lookup_message_v2 _)).
    match goal with
    | |- context [execute tr ?rid ?ver ?f ?m ?url ?h ?q ?b ?w1] =>
        destruct (execute_effects tr rid ver f m url h q b w1) as [-> _]
    end.
    eexists. split; [reflexivity |]. split; [reflexivity |].
    right. cbn [req_data data_world data_ref]. by rewrite Hd.
Qed.

Lemma send_message_no_content salt tr uj room_id message from_name k v k' ver
    color notify w :
  credentials salt k v k' (SStr ver) -> supported ver ->
  (forall req, exists j, tr req = Ret (Response 204 j)) ->
  fst (send_message salt tr uj room_id message from_name k v color notify w)
  = Ret PTrue.
Proof.
  intros Hc Hv Htr. rewrite send_message_run.
  assert (known "message") as Hf by (right; by right).
  match goal with
  | |- context [bind (_query _ _ _ ?f _ _ ?m ?data) _ ?w0] =>
      destruct (query_no_content salt tr uj f k v k' ver m data w0 Hc Hv Hf)
        as [w' E]
  end.
  - cbn. rewrite length_app. cbn. lia.
  - exact Htr.
  - by erewrite bind_run by exact E.
Qed.

(** ** The specification's example of truncation *)

Lemma substring_repeat c n m :
  (n <= m)%nat ->
  String.substring 0 n (repeat_str (String c "") m) = repeat_str (String c "") n.
Proof.
  revert m. induction n as [| n IH]; intros [| m] Hnm; try done; try lia.
  change (String c (String.substring 0 n (repeat_str (String c "") m))
          = String c (repeat_str (String c "") n)).
  by rewrite IH by lia.
Qed.

(** A sender of 30 characters and a message of 12000: the body of the one
    request has 15 and 10000 of them, under v1 and under v2, and the
    operation reports success. *)
Lemma send_message_truncation_example version :
  supported version ->
  let from_name := repeat_str "f" (Z.to_nat 30) in
  let message := repeat_str "m" (Z.to_nat 12000) in
  let run :=
    send_message SaltUnbound (answering 204 None) join_paths
      (SInt 7) message from_name (SStr "key") (SStr version)
      (SStr "yellow") (SBool false) world0 in
  (exists req,
     calls (snd run) = [req]
     /\ carries (req_data req) "from" (SStr (repeat_str "f" (Z.to_nat 15)))
     /\ carries (req_data req) "message"
          (SStr (repeat_str "m" (Z.to_nat 10000))))
  /\ fst run = Ret PTrue.
Proof.
  intros Hv from_name message run.
  assert (credentials SaltUnbound (SStr "key") (SStr version)
            (SStr "key") (SStr version)) as Hc.
  { apply credentials_explicit; [done |].
    by destruct Hv as [-> | ->]. }
  split.
  - destruct (send_message_request SaltUnbound (answering 204 None) join_paths
                (SInt 7) message from_name (SStr "key") (SStr version)
                (SStr "key") version (SStr "yellow") (SBool false) world0 Hc Hv)
      as (req & Hcalls & _ & Hbody).
    exists req. split; [exact Hcalls |].
    split; (eapply carried_member; [| done | exact Hbody]).
    + rewrite parameters_from. unfold slice_to, from_name.
      by rewrite substring_repeat by lia.
    + rewrite parameters_message. unfold slice_to, message.
      by rewrite substring_repeat by lia.
  - eapply send_message_no_content; [exact Hc | exact Hv |].
    intros req. by exists None.
Qed.

(** * Further properties of the module *)

(** ** Every way a run of [_query] can go *)

(** The fall-back never raises: it yields credentials and leaves the world
    alone, or logs and gives up. *)
Lemma resolve_cases salt k v :
  (exists k' v', credentials salt k v k' v')
  \/ (forall w,
        resolve salt k v w
        = (Ret None,
           World (heap w) (calls w)
             (logs w ++ [(ERROR, LText "No HipChat api key or version found.")]))).
Proof.
  destruct (negb (truthy k) || negb (truthy v)) eqn:Hkv.
  - assert (truthy k = false \/ truthy v = false) as Hor.
    { apply orb_true_iff in Hkv as [H | H]; apply negb_true_iff in H; auto. }
    destruct salt as [| | c].
    + right. intros w. by apply resolve_unconfigured.
    + right. intros w. by apply resolve_unconfigured.
    + destruct (c "hipchat") as [d | a] eqn:Hc.
      * left.
        exists (if truthy k then k else dict_get d "api_key"),
          (if truthy v then v else dict_get d "api_version").
        intros w. unfold resolve. rewrite Hkv.
        unfold try_except, config_option, bind, ret. cbv beta iota. rewrite Hc.
        by destruct (truthy k), (truthy v).
      * right. intros w. apply resolve_unconfigured; [done |]. cbn. by rewrite Hc.
  - left. exists k, v. intros w. unfold resolve. by rewrite Hkv.
Qed.

Section Cases.
Variable salt : salt_env.
Variable tr : request -> outcome response.
Variable uj : string -> string -> bool -> string.

Lemma query_gives_up f k v m data w :
  (forall w,
     resolve salt k v w
     = (Ret None,
        World (heap w) (calls w)
          (logs w ++ [(ERROR, LText "No HipChat api key or version found.")]))) ->
  _query salt tr uj f k v m data w
  = (Ret PFalse,
     World (heap (data_world data w)) (calls w)
       (logs w ++ [(ERROR, LText "No HipChat api key or version found.")])).
Proof.
  intros Hr. unfold _query. rewrite bind_enter, bind_load.
  erewrite bind_run by apply Hr. by destruct data.
Qed.

(** A run of [_query] on a known operation name: it gives up on the
    credentials, raises before anything is sent, or builds the v1 or the v2
    request and hands it to the transport. *)
Lemma query_cases f k v m data w :
  known f -> live data w ->
  let l := data_ref data w in
  let w1 := data_world data w in
  let d := default ∅ (heap w1 !! l) in
  let run := _query salt tr uj f k v m data w in
  run = (Ret PFalse,
         World (heap w1) (calls w)
           (logs w ++ [(ERROR, LText "No HipChat api key or version found.")]))
  \/ (exists e, run = (Raise e, w1))
  \/ (exists k' p e,
        credentials salt k v k' (SStr "v1")
        /\ lookup_descriptor (room_id_of d) "v1" f = Ret (Some (Descriptor p e))
        /\ run
           = execute tr (room_id_of d) "v1" f m
               (uj (uj api_url "v1/" true) p false)
               (if decide (m = "POST")
                then {["Content-Type" := "application/x-www-form-urlencoded"]}
                else ∅)
               (<["auth_token" := k']> {["format" := SStr "json"]})
               (FormData (<["notify" := notify_flag d]> d))
               (World (<[l := <["notify" := notify_flag d]> d]> (heap w1))
                  (calls w1) (logs w1)))
  \/ (exists k' p e,
        credentials salt k v k' (SStr "v2")
        /\ lookup_descriptor (room_id_of d) "v2" f = Ret (Some (Descriptor p e))
        /\ run
           = execute tr (room_id_of d) "v2" f m
               (uj (uj api_url "v2/" true) p false)
               {["Authorization" := "Bearer " +:+ py_str k']} ∅
               (JsonText (json_dumps d)) w1).
Proof.
  intros Hf Hl l w1 d run. unfold run.
  destruct (resolve_cases salt k v) as [(k' & a & Hc) | Hr].
  2: { left. by rewrite (query_gives_up f k v m data w Hr). }
  right.
  destruct a as [| b | z | ver].
  1-3: left; exists TypeError;
       by apply (query_no_version salt tr uj f k v k' _ m data w Hc).
  destruct (decide (ver = "v1")) as [-> | H1].
  { right. left.
    destruct (lookup_known_v1 (room_id_of d) f Hf) as (p & e & E).
    exists k', p, (Some e). split; [exact Hc |]. split; [exact E |].
    by apply (query_v1 salt tr uj f k v k' m data w p (Some e)). }
  destruct (decide (ver = "v2")) as [-> | H2].
  { right. right.
    destruct (lookup_known_v2 (room_id_of d) f Hf) as (p & e & E).
    exists k', p, e. split; [exact Hc |]. split; [exact E |].
    by apply (query_v2 salt tr uj f k v k' m data w p e). }
  left. exists AttributeError.
  by apply (query_unsupported salt tr uj f k v k' ver m data w).
Qed.

(** A call of the transport: the request is recorded; a [ConnectionError]
    is logged and absorbed, another exception escapes, an answer is read. *)
Lemma execute_cases rid ver f m url h q b w :
  let req := Request m url h q b true in
  let w' := World (heap w) (calls w ++ [req]) (logs w) in
  execute tr rid ver f m url h q b w
  = (Ret PFalse,
     World (heap w) (calls w ++ [req]) (logs w ++ [(ERROR, LExn ConnectionError)]))
  \/ (exists e, e <> ConnectionError
        /\ execute tr rid ver f m url h q b w = (Raise e, w'))
  \/ (exists r, tr req = Ret r
        /\ execute tr rid ver f m url h q b w = interpret rid ver f url q b r w').
Proof.
  intros req w'.
  destruct (tr req) as [r | e] eqn:E.
  - right. right. exists r. split; [done |]. by apply execute_answered.
  - destruct (decide (e = ConnectionError)) as [-> | Hne].
    + left. by apply execute_refused.
    + right. left. exists e. split; [done |]. by apply execute_escapes.
Qed.

End Cases.

(** ** What any run leaves behind *)

Lemma interpret_world rid ver f url q b r w :
  exists new,
    snd (interpret rid ver f url q b r w)
    = World (heap w) (calls w) (logs w ++ new)
    /\ ((ERROR, LText "Unsupported HipChat API version") ∉ new).
Proof.
  destruct (decide (status_code r = 200)) as [E | H200].
  { exists []. split; [| apply not_elem_of_nil]. rewrite app_nil_r.
    unfold interpret, response_json. apply Z.eqb_eq in E. rewrite E.
    destruct w. destruct (json r) as [v |]; [| done].
    by destruct (lookup_descriptor rid ver f) as [[o |] | ?]. }
  destruct (decide (status_code r = 204)) as [E | H204].
  { exists []. split; [| apply not_elem_of_nil]. rewrite app_nil_r.
    rewrite interpret_204 by done. by destruct w. }
  destruct (json r) as [v |] eqn:Hj.
  - destruct v as [a | l | d].
    + eexists. split.
      * unfold interpret, response_json. apply Z.eqb_neq in H200, H204.
        rewrite H200, H204, Hj. unfold bind, log, ret, lift. cbn.
        by rewrite <- !app_assoc.
      * cbn. rewrite !not_elem_of_cons. split_and!; try done. apply not_elem_of_nil.
    + eexists. split.
      * unfold interpret, response_json. apply Z.eqb_neq in H200, H204.
        rewrite H200, H204, Hj. unfold bind, log, ret, lift. cbn.
        by rewrite <- !app_assoc.
      * cbn. rewrite !not_elem_of_cons. split_and!; try done. apply not_elem_of_nil.
    + eexists. split.
      * by rewrite (interpret_error _ _ _ _ _ _ _ _ d).
      * destruct (py_truthy _); cbn; rewrite !not_elem_of_cons;
          split_and!; try done; apply not_elem_of_nil.
  - eexists. split.
    + by rewrite interpret_error_undecodable.
    + rewrite !not_elem_of_cons. split_and!; try done. apply not_elem_of_nil.
Qed.

Lemma find_in_pure rooms name w : snd (find_in rooms name w) = w.
Proof.
  unfold find_in. destruct (py_truthy rooms); [| done].
  unfold bind, lift, ret. destruct (py_len rooms) as [n |]; [| done].
  by destruct (scan rooms name (seq 0 n)) as [[r |] |].
Qed.

Section Worlds.
Variable salt : salt_env.
Variable tr : request -> outcome response.
Variable uj : string -> string -> bool -> string.

Lemma execute_world rid ver f m url h q b w :
  exists new,
    snd (execute tr rid ver f m url h q b w)
    = World (heap w) (calls w ++ [Request m url h q b true]) (logs w ++ new)
    /\ ((ERROR, LText "Unsupported HipChat API version") ∉ new).
Proof.
  destruct (execute_cases tr rid ver f m url h q b w)
    as [-> | [(e & _ & ->) | (r & _ & ->)]].
  - eexists. split; [done |].
    rewrite not_elem_of_cons. split; [done | apply not_elem_of_nil].
  - exists []. rewrite app_nil_r. split; [done | apply not_elem_of_nil].
  - apply (interpret_world rid ver f url q b r
             (World (heap w) (calls w ++ [Request m url h q b true]) (logs w))).
Qed.

(** The requests, log records and dictionaries after a run of [_query] on
    a known operation name. *)
Lemma query_world f k v m data w :
  known f -> live data w ->
  let w' := snd (_query salt tr uj f k v m data w) in
  exists sent new d',
    calls w' = calls w ++ sent
    /\ (sent = []
        \/ exists req,
             sent = [req] /\ req_method req = m /\ req_verify req = true)
    /\ logs w' = logs w ++ new
    /\ ((ERROR, LText "Unsupported HipChat API version") ∉ new)
    /\ heap w' = <[data_ref data w := d']> (heap (data_world data w)).
Proof.
  intros Hf Hl w'. unfold w'.
  pose proof (live_ref data w Hl) as Hlt.
  assert (calls (data_world data w) = calls w) as Hcw by (by destruct data).
  assert (logs (data_world data w) = logs w) as Hlw by (by destruct data).
  destruct (lookup_lt_is_Some_2 _ _ Hlt) as [d Hd].
  assert (heap (data_world data w)
          = <[data_ref data w := d]> (heap (data_world data w))) as Hid.
  { symmetry. by apply list_insert_id. }
  destruct (query_cases salt tr uj f k v m data w Hf Hl)
    as [-> | [[e ->] | [(k' & p & e & _ & _ & ->) | (k' & p & e & _ & _ & ->)]]].
  - exists [], [(ERROR, LText "No HipChat api key or version found.")], d.
    rewrite app_nil_r. split_and!; auto.
    rewrite not_elem_of_cons. split; [done | apply not_elem_of_nil].
  - exists [], [], d. rewrite !app_nil_r. split_and!; auto.
    apply not_elem_of_nil.
  - match goal with
    | |- context [execute tr ?rid ?ver ?f ?m ?url ?h ?q ?b ?w0] =>
        destruct (execute_world rid ver f m url h q b w0) as (new & -> & Hnew)
    end.
    eexists _, new, _. cbn [calls logs heap]. rewrite Hcw, Hlw.
    split_and!; [done | right; by eexists | done | done | done].
  - match goal with
    | |- context [execute tr ?rid ?ver ?f ?m ?url ?h ?q ?b ?w0] =>
        destruct (execute_world rid ver f m url h q b w0) as (new & -> & Hnew)
    end.
    eexists _, new, d. cbn [calls logs heap]. rewrite Hcw, Hlw.
    split_and!; [done | right; by eexists | done | done | done].
Qed.

(** The same for a public operation: the method is GET for the listings
    and searches and POST for a message, and the dictionaries that existed
    before the call are as they were. *)
Lemma call_world op k v w :
  let w' := snd (call salt tr uj op k v w) in
  exists sent new extra,
    calls w' = calls w ++ sent
    /\ (sent = []
        \/ exists req,
             sent = [req]
             /\ req_method req
                = match op with SendMessage _ _ _ _ _ => "POST" | _ => "GET" end
             /\ req_verify req = true)
    /\ logs w' = logs w ++ new
    /\ ((ERROR, LText "Unsupported HipChat API version") ∉ new)
    /\ heap w' = heap w ++ extra.
Proof.
  intros w'. unfold w'.
  assert (forall f, known f ->
            exists sent new extra,
              calls (snd (_query salt tr uj f k v "GET" None w)) = calls w ++ sent
              /\ (sent = []
                  \/ exists req,
                       sent = [req] /\ req_method req = "GET"
                       /\ req_verify req = true)
              /\ logs (snd (_query salt tr uj f k v "GET" None w)) = logs w ++ new
              /\ ((ERROR, LText "Unsupported HipChat API version") ∉ new)
              /\ heap (snd (_query salt tr uj f k v "GET" None w))
                 = heap w ++ extra) as Hlist.
  { intros f Hf.
    destruct (query_world f k v "GET" None w Hf I)
      as (sent & new & d' & Hc & Hs & Hlg & Hn & Hh).
    exists sent, new, [d']. split_and!; try done.
    rewrite Hh. cbn [data_ref data_world heap]. apply insert_last. }
  destruct op as [| | name | name | room_id message from_name color notify];
    cbn [call].
  - apply Hlist. by left.
  - apply Hlist. right. by left.
  - unfold find_room, list_rooms.
    rewrite bind_pure by (intros; apply find_in_pure).
    apply Hlist. by left.
  - unfold find_user, list_users.
    rewrite bind_pure by (intros; apply find_in_pure).
    apply Hlist. right. by left.
  - rewrite send_message_run.
    rewrite bind_pure by (intros a w0; by destruct (py_truthy a)).
    match goal with
    | |- context [_query salt tr uj ?f k v ?m ?data ?w0] =>
        destruct (query_world f k v m data w0)
          as (sent & new & d' & Hc & Hs & Hlg & Hn & Hh)
    end.
    + right. by right.
    + cbn. rewrite length_app. cbn. lia.
    + exists sent, new, [d']. split_and!; try done.
      rewrite Hh. cbn [data_ref data_world heap]. apply insert_last.
Qed.

End Worlds.

(** X1: whatever its arguments, the configuration and the transport, a
    public operation invokes the transport at most once, with certificate
    verification on, with GET for the listings and searches and POST for
    a message. *)
Theorem one_request_at_most salt tr uj op k v w :
  exists sent,
    calls (snd (call salt tr uj op k v w)) = calls w ++ sent
    /\ (sent = []
        \/ exists req,
             sent = [req]
             /\ req_verify req = true
             /\ req_method req
                = match op with SendMessage _ _ _ _ _ => "POST" | _ => "GET" end).
Proof.
  destruct (call_world salt tr uj op k v w)
    as (sent & new & extra & Hc & Hs & _).
  exists sent. split; [exact Hc |].
  destruct Hs as [-> | (req & -> & Hm & Hv)]; [by left |].
  right. by exists req.
Qed.

(** X2: no run of a public operation logs the record of lines 119-121,
    "Unsupported HipChat API version": the branch is never reached. *)
Theorem unsupported_note_never_logged salt tr uj op k v w :
  exists new,
    logs (snd (call salt tr uj op k v w)) = logs w ++ new
    /\ ((ERROR, LText "Unsupported HipChat API version") ∉ new).
Proof.
  destruct (call_world salt tr uj op k v w)
    as (sent & new & extra & _ & _ & Hl & Hn & _).
  by exists new.
Qed.


(** ** The request of each operation *)

Lemma credentials_configured d k v :
  credentials (configured d) k v
    (if truthy k then k else dict_get d "api_key")
    (if truthy v then v else dict_get d "api_version").
Proof.
  intros w. destruct (truthy k) eqn:Hk, (truthy v) eqn:Hv.
  - by apply resolve_explicit.
  - rewrite resolve_configured by auto. by rewrite Hk, Hv.
  - rewrite resolve_configured by auto. by rewrite Hk, Hv.
  - rewrite resolve_configured by auto. by rewrite Hk, Hv.
Qed.

Section Requests.
Variable salt : salt_env.
Variable tr : request -> outcome response.
Variable uj : string -> string -> bool -> string.

(** The one request of a run with a supported version, field by field. *)
Lemma query_request f k v k' ver m data w :
  credentials salt k v k' (SStr ver) -> supported ver ->
  known f -> live data w ->
  let d := default ∅ (heap (data_world data w) !! data_ref data w) in
  exists req p e,
    calls (snd (_query salt tr uj f k v m data w)) = calls w ++ [req]
    /\ lookup_descriptor (room_id_of d) ver f = Ret (Some (Descriptor p e))
    /\ req_url req = uj (uj api_url (ver +:+ "/") true) p false
    /\ (ver = "v1" ->
        req_params req = <["auth_token" := k']> {["format" := SStr "json"]}
        /\ req_headers req
           = if decide (m = "POST")
             then {["Content-Type" := "application/x-www-form-urlencoded"]}
             else ∅)
    /\ (ver = "v2" ->
        req_params req = ∅
        /\ req_headers req = {["Authorization" := "Bearer " +:+ py_str k']}).
Proof.
  intros Hc Hv Hf Hl d.
  assert (calls (data_world data w) = calls w) as Hcw by (by destruct data).
  destruct Hv as [-> | ->].
  - destruct (lookup_known_v1 (room_id_of d) f Hf) as (p & e & E).
    rewrite (query_v1 salt tr uj f k v k' m data w p (Some e) Hc Hl E).
    match goal with
    | |- context [execute tr ?rid ?ver ?f ?m ?url ?h ?q ?b ?w0] =>
        destruct (execute_effects tr rid ver f m url h q b w0) as [-> _]
    end.
    eexists _, p, (Some e). cbn [calls]. rewrite Hcw.
    split_and!; [done | done | done | done | done].
  - destruct (lookup_known_v2 (room_id_of d) f Hf) as (p & e & E).
    rewrite (query_v2 salt tr uj f k v k' m data w p e Hc E).
    match goal with
    | |- context [execute tr ?rid ?ver ?f ?m ?url ?h ?q ?b ?w0] =>
        destruct (execute_effects tr rid ver f m url h q b w0) as [-> _]
    end.
    eexists _, p, e. rewrite Hcw.
    split_and!; [done | done | done | done | done].
Qed.

(** The requests of the public operations are those of [_query]. *)
Lemma find_room_calls name k v w :
  calls (snd (find_room salt tr uj name k v w))
  = calls (snd (_query salt tr uj "rooms" k v "GET" None w)).
Proof.
  unfold find_room, list_rooms.
  by rewrite bind_pure by (intros; apply find_in_pure).
Qed.

Lemma find_user_calls name k v w :
  calls (snd (find_user salt tr uj name k v w))
  = calls (snd (_query salt tr uj "users" k v "GET" None w)).
Proof.
  unfold find_user, list_users.
  by rewrite bind_pure by (intros; apply find_in_pure).
Qed.

Lemma send_message_calls room_id message from_name k v color notify w :
  calls (snd (send_message salt tr uj room_id message from_name k v color notify w))
  = calls (snd (_query salt tr uj "message" k v "POST"
                  (Some (List.length (heap w)))
                  (World (heap w ++ [message_parameters room_id message from_name
                                       color notify])
                     (calls w) (logs w)))).
Proof.
  rewrite send_message_run.
  by rewrite bind_pure by (intros a w0; by destruct (py_truthy a)).
Qed.

Lemma message_world_live room_id message from_name color notify w :
  live (Some (List.length (heap w)))
    (World (heap w ++ [message_parameters room_id message from_name color notify])
       (calls w) (logs w)).
Proof. cbn. rewrite length_app. cbn. lia. Qed.

End Requests.

Lemma call_as_query salt tr uj op k v w :
  exists f data w0,
    known f /\ live data w0 /\ calls w0 = calls w
    /\ calls (snd (call salt tr uj op k v w))
       = calls (snd (_query salt tr uj f k v
                       match op with SendMessage _ _ _ _ _ => "POST" | _ => "GET" end
                       data w0)).
Proof.
  destruct op as [| | name | name | room_id message from_name color notify];
    cbn [call].
  - exists "rooms", None, w. split_and!; try done. by left.
  - exists "users", None, w. split_and!; try done. right. by left.
  - exists "rooms", None, w. split_and!; try done; [by left |].
    apply find_room_calls.
  - exists "users", None, w. split_and!; try done; [right; by left |].
    apply find_user_calls.
  - eexists "message", _, _. split_and!; [right; by right | | | apply send_message_calls].
    + apply message_world_live.
    + done.
Qed.

(** X4: with a supported version every public operation sends one request,
    authenticated the way of the version.  Under v1 the key travels as the
    query parameter [auth_token] beside [format=json], and only a message
    (a POST) has a header, the form content type.  Under v2 there is no
    query parameter and the only header is [Authorization: Bearer <key>]. *)
Theorem authentication_by_version salt tr uj op k v k' ver w :
  credentials salt k v k' (SStr ver) -> supported ver ->
  exists req,
    calls (snd (call salt tr uj op k v w)) = calls w ++ [req]
    /\ (ver = "v1" ->
        req_params req = <["auth_token" := k']> {["format" := SStr "json"]}
        /\ req_headers req
           = match op with
             | SendMessage _ _ _ _ _ =>
                 {["Content-Type" := "application/x-www-form-urlencoded"]}
             | _ => ∅
             end)
    /\ (ver = "v2" ->
        req_params req = ∅
        /\ req_headers req = {["Authorization" := "Bearer " +:+ py_str k']}).
Proof.
  intros Hc Hv.
  destruct (call_as_query salt tr uj op k v w)
    as (f & data & w0 & Hf & Hl & Hcw & ->).
  destruct (query_request salt tr uj f k v k' ver
              match op with SendMessage _ _ _ _ _ => "POST" | _ => "GET" end
              data w0 Hc Hv Hf Hl)
    as (req & p & e & Hcalls & _ & _ & H1 & H2).
  exists req. rewrite Hcalls, Hcw. split; [done |]. split; [| exact H2].
  intros Hver. destruct (H1 Hver) as [Hp Hh]. split; [exact Hp |].
  rewrite Hh. by destruct op.
Qed.

Lemma authentication_by_version_witness :
  exists req,
    calls (snd (call SaltUnbound (answering 204 None) join_paths
                  (SendMessage (SInt 7) "Build is done" "Build Server"
                     (SStr "yellow") (SBool false))
                  (SStr "key") (SStr "v2") world0))
    = calls world0 ++ [req]
    /\ req_params req = ∅
    /\ req_headers req = {["Authorization" := "Bearer key"]}.
Proof.
  destruct (authentication_by_version SaltUnbound (answering 204 None) join_paths
              (SendMessage (SInt 7) "Build is done" "Build Server"
                 (SStr "yellow") (SBool false))
              (SStr "key") (SStr "v2") (SStr "key") "v2" world0)
    as (req & Hcalls & _ & H2).
  - intros w. reflexivity.
  - right. reflexivity.
  - exists req. split; [exact Hcalls |]. exact (H2 eq_refl).
Defined.

(** X5: the URL of each operation.  It is [urljoin] of the base
    [urljoin('https://api.hipchat.com', version + '/')] and the path of the
    table: [rooms/list], [users/list] and [rooms/message] under v1; [room],
    [user] and [room/<room>/notification] under v2, where [<room>] is
    [str(room_id)] for a truthy [room_id] and [0] otherwise. *)
Theorem operation_urls salt tr uj k v k' ver w :
  credentials salt k v k' (SStr ver) -> supported ver ->
  let base := uj api_url (ver +:+ "/") true in
  let sent op := calls (snd (call salt tr uj op k v w)) in
  (exists req,
     sent ListRooms = calls w ++ [req]
     /\ req_url req
        = uj base (if decide (ver = "v1") then "rooms/list" else "room") false)
  /\ (exists req,
        sent ListUsers = calls w ++ [req]
        /\ req_url req
           = uj base (if decide (ver = "v1") then "users/list" else "user") false)
  /\ (forall room_id message from_name color notify,
        exists req,
          sent (SendMessage room_id message from_name color notify)
          = calls w ++ [req]
          /\ req_url req
             = uj base
                 (if decide (ver = "v1") then "rooms/message"
                  else "room/"
                       +:+ (if truthy room_id then py_str room_id else "0")
                       +:+ "/notification")
                 false).
Proof.
  intros Hc Hv base sent. unfold sent, base. split_and!.
  - cbn [call]. unfold list_rooms.
    destruct (query_request salt tr uj "rooms" k v k' ver "GET" None w Hc Hv)
      as (req & p & e & Hcalls & Hp & Hurl & _); [by left | done |].
    exists req. split; [exact Hcalls |]. rewrite Hurl.
    destruct Hv as [-> | ->]; by injection Hp as <- _.
  - cbn [call]. unfold list_users.
    destruct (query_request salt tr uj "users" k v k' ver "GET" None w Hc Hv)
      as (req & p & e & Hcalls & Hp & Hurl & _); [right; by left | done |].
    exists req. split; [exact Hcalls |]. rewrite Hurl.
    destruct Hv as [-> | ->]; by injection Hp as <- _.
  - intros room_id message from_name color notify. cbn [call].
    rewrite send_message_calls.
    match goal with
    | |- context [_query salt tr uj ?f k v ?m ?data ?w0] =>
        destruct (query_request salt tr uj f k v k' ver m data w0 Hc Hv)
          as (req & p & e & Hcalls & Hp & Hurl & _)
    end.
    + right. by right.
    + apply message_world_live.
    + exists req. split; [exact Hcalls |]. rewrite Hurl.
      cbn [data_world data_ref heap] in Hp. rewrite lookup_last in Hp.
      change (default ∅ (Some ?x)) with x in Hp.
      unfold room_id_of, dict_get in Hp. rewrite parameters_room_id in Hp.
      change (default SNone (Some room_id)) with room_id in Hp.
      destruct Hv as [-> | ->].
      * by injection Hp as <- _.
      * rewrite lookup_message_v2 in Hp. by injection Hp as <- _.
Qed.

Lemma operation_urls_witness :
  exists req,
    calls (snd (call SaltUnbound (answering 204 None) join_paths
                  (SendMessage (SStr "Ops") "Build is done" "Build Server"
                     (SStr "yellow") (SBool false))
                  (SStr "key") (SStr "v2") world0))
    = calls world0 ++ [req]
    /\ req_url req = "https://api.hipchat.com/v2/room/Ops/notification".
Proof.
  refine (proj2 (proj2 (operation_urls SaltUnbound (answering 204 None) join_paths
                          (SStr "key") (SStr "v2") (SStr "key") "v2" world0 _ _))
            (SStr "Ops") "Build is done" "Build Server" (SStr "yellow")
            (SBool false)).
  - intros w. reflexivity.
  - right. reflexivity.
Defined.

(** ** Credentials *)

(** X6: with a [hipchat] mapping in the configuration, a credential that
    is passed in (and truthy) is used as it is and one that is not is read
    from the mapping, each on its own: the key reaches the request as the
    v1 [auth_token] or the v2 bearer token, the version picks the base of
    the URL. *)
Theorem credential_precedence d tr uj f k v ver m data w :
  known f -> live data w -> supported ver ->
  (if truthy v then v else dict_get d "api_version") = SStr ver ->
  let k' := if truthy k then k else dict_get d "api_key" in
  exists req p,
    calls (snd (_query (configured d) tr uj f k v m data w)) = calls w ++ [req]
    /\ req_url req = uj (uj api_url (ver +:+ "/") true) p false
    /\ (ver = "v1" -> req_params req !! "auth_token" = Some k')
    /\ (ver = "v2" ->
        req_headers req !! "Authorization" = Some ("Bearer " +:+ py_str k')).
Proof.
  intros Hf Hl Hv Hver k'.
  pose proof (credentials_configured d k v) as Hc. rewrite Hver in Hc.
  destruct (query_request (configured d) tr uj f k v k' ver m data w Hc Hv Hf Hl)
    as (req & p & e & Hcalls & _ & Hurl & H1 & H2).
  exists req, p. split; [exact Hcalls |]. split; [exact Hurl |]. split.
  - intros E. destruct (H1 E) as [-> _]. by rewrite lookup_insert_eq.
  - intros E. destruct (H2 E) as [_ ->]. by rewrite lookup_singleton_eq.
Qed.

Lemma credential_precedence_witness :
  let d : gmap string scalar :=
    {["api_key" := SStr "configured"; "api_version" := SStr "v1"]} in
  exists req p,
    calls (snd (_query (configured d) (answering 204 None) join_paths
                  "rooms" (SStr "passed") SNone "GET" None world0))
    = calls world0 ++ [req]
    /\ req_url req = join_paths (join_paths api_url "v1/" true) p false
    /\ req_params req !! "auth_token" = Some (SStr "passed").
Proof.
  intros d.
  destruct (credential_precedence d (answering 204 None) join_paths
              "rooms" (SStr "passed") SNone "v1" "GET" None world0)
    as (req & p & Hcalls & Hurl & H1 & _).
  - by left.
  - exact I.
  - by left.
  - reflexivity.
  - exists req, p. split; [exact Hcalls |]. split; [exact Hurl |].
    exact (H1 eq_refl).
Defined.

Section Explicit.
Variable tr : request -> outcome response.
Variable uj : string -> string -> bool -> string.

Lemma query_explicit salt salt' f k v m data w :
  truthy k = true -> truthy v = true ->
  _query salt tr uj f k v m data w = _query salt' tr uj f k v m data w.
Proof.
  intros Hk Hv. unfold _query. rewrite !bind_enter, !bind_load.
  erewrite (bind_run (resolve salt k v)) by (by apply resolve_explicit).
  by erewrite (bind_run (resolve salt' k v)) by (by apply resolve_explicit).
Qed.

End Explicit.

(** X7: when both credentials are passed in, the configuration is not
    consulted: every public operation runs the same, whatever [__salt__]
    holds, and also when it is unbound. *)
Theorem explicit_credentials_need_no_configuration salt salt' tr uj op k v w :
  truthy k = true -> truthy v = true ->
  call salt tr uj op k v w = call salt' tr uj op k v w.
Proof.
  intros Hk Hv.
  destruct op as [| | name | name | room_id message from_name color notify];
    cbn [call].
  - by apply query_explicit.
  - by apply query_explicit.
  - unfold find_room, list_rooms, bind.
    by rewrite (query_explicit tr uj salt salt' "rooms" k v "GET" None w Hk Hv).
  - unfold find_user, list_users, bind.
    by rewrite (query_explicit tr uj salt salt' "users" k v "GET" None w Hk Hv).
  - rewrite !send_message_run. unfold bind.
    by rewrite (query_explicit tr uj salt salt' "message" k v "POST" _ _ Hk Hv).
Qed.

Lemma explicit_credentials_need_no_configuration_witness :
  call SaltUnbound (answering 200 (Some two_rooms)) join_paths
    (FindRoom "Ops") (SStr "key") (SStr "v1") world0
  = call (configured {["api_key" := SStr "other"; "api_version" := SStr "v2"]})
      (answering 200 (Some two_rooms)) join_paths
      (FindRoom "Ops") (SStr "key") (SStr "v1") world0.
Proof.
  apply explicit_credentials_need_no_configuration; reflexivity.
Defined.

(** ** Answers and failures of the transport *)

Section Escapes.
Variable salt : salt_env.
Variable tr : request -> outcome response.
Variable uj : string -> string -> bool -> string.

Lemma query_escapes f k v k' ver m data w e :
  credentials salt k v k' (SStr ver) -> supported ver ->
  known f -> live data w ->
  (forall req, tr req = Raise e) -> e <> ConnectionError ->
  exists w', _query salt tr uj f k v m data w = (Raise e, w').
Proof.
  intros Hc Hv Hf Hl Htr Hne.
  destruct (lookup_supported
              (room_id_of (default ∅ (heap (data_world data w) !! data_ref data w)))
              ver f Hv Hf) as (p & x & E).
  destruct (query_supported salt tr uj f k v k' ver m data w p x Hc Hl E)
    as (h & q & b & w1 & -> & _).
  rewrite (execute_escapes tr _ _ _ _ _ _ _ _ _ e (Htr _) Hne). eauto.
Qed.

(** The answer to a 200: the member of the body under the envelope key of
    the table. *)
Lemma query_200 f k v k' ver m data w p key body :
  credentials salt k v k' (SStr ver) -> live data w ->
  lookup_descriptor
    (room_id_of (default ∅ (heap (data_world data w) !! data_ref data w))) ver f
  = Ret (Some (Descriptor p key)) ->
  (forall req, tr req = Ret (Response 200 (Some body))) ->
  fst (_query salt tr uj f k v m data w) = py_get body key.
Proof.
  intros Hc Hl Hf Htr.
  destruct (query_supported salt tr uj f k v k' ver m data w p key Hc Hl Hf)
    as (h & q & b & w1 & -> & _).
  rewrite (execute_answered tr _ _ _ _ _ _ _ _ _ _ (Htr _)).
  by erewrite interpret_200; [| done | done | exact Hf].
Qed.

End Escapes.

(** X8: only [requests.ConnectionError] is absorbed.  With a supported
    version, any other exception of the transport (a read timeout, too
    many redirects) is raised by every public operation. *)
Theorem other_transport_errors_escape salt tr uj op k v k' ver e w :
  credentials salt k v k' (SStr ver) -> supported ver ->
  (forall req, tr req = Raise e) -> e <> ConnectionError ->
  fst (call salt tr uj op k v w) = Raise e.
Proof.
  intros Hc Hv Htr Hne.
  destruct (call_via_query salt tr uj op k v w)
    as (f & m & data & w0 & post & Hf & Hl & _ & -> & _).
  destruct (query_escapes salt tr uj f k v k' ver m data w0 e Hc Hv Hf Hl Htr Hne)
    as [w' E].
  by erewrite bind_fail by exact E.
Qed.

Lemma other_transport_errors_escape_witness :
  fst (call SaltUnbound (failing RequestException) join_paths
         (SendMessage (SInt 7) "Build is done" "Build Server"
            (SStr "yellow") (SBool false))
         (SStr "key") (SStr "v1") world0)
  = Raise RequestException.
Proof.
  apply (other_transport_errors_escape _ _ _ _ _ _ (SStr "key") "v1").
  - intros w. reflexivity.
  - left. reflexivity.
  - intros req. reflexivity.
  - discriminate.
Defined.

(** X9: a listing answered with status 200 returns what [get] gives on the
    decoded body for the envelope key: [rooms] and [users] under v1,
    [items] under v2.  So it is the member when the body is an object that
    has it, [None] when the object lacks it, and an [AttributeError] when
    the body is not an object. *)
Theorem listing_envelope salt tr uj k v k' ver body w :
  credentials salt k v k' (SStr ver) -> supported ver ->
  (forall req, tr req = Ret (Response 200 (Some body))) ->
  fst (list_rooms salt tr uj k v w)
  = py_get body (Some (if decide (ver = "v1") then "rooms" else "items"))
  /\ fst (list_users salt tr uj k v w)
     = py_get body (Some (if decide (ver = "v1") then "users" else "items")).
Proof.
  intros Hc Hv Htr. unfold list_rooms, list_users.
  destruct Hv as [-> | ->]; split;
    by eapply query_200; [exact Hc | done | reflexivity | exact Htr].
Qed.

Lemma listing_envelope_witness :
  fst (list_rooms SaltUnbound (answering 200 (Some two_rooms)) join_paths
         (SStr "key") (SStr "v2") world0)
  = Ret PNone.
Proof.
  refine (proj1 (listing_envelope SaltUnbound (answering 200 (Some two_rooms))
                   join_paths (SStr "key") (SStr "v2") (SStr "key") "v2"
                   two_rooms world0 _ _ _)).
  - intros w. reflexivity.
  - right. reflexivity.
  - intros req. reflexivity.
Defined.

(** X10: under v1 a message answered with status 200 and a JSON object is
    reported sent exactly when the [status] member of the object is
    truthy; [send_message] returns [True] or [False], never the member. *)
Theorem send_message_v1_status salt tr uj room_id message from_name k v k'
    color notify body w :
  credentials salt k v k' (SStr "v1") ->
  (forall req, tr req = Ret (Response 200 (Some (PDict body)))) ->
  fst (send_message salt tr uj room_id message from_name k v color notify w)
  = Ret (if py_truthy (default PNone (assoc "status" body))
         then PTrue else PFalse).
Proof.
  intros Hc Htr. rewrite send_message_run.
  match goal with
  | |- context [bind (_query _ _ _ ?f _ _ ?m ?data) _ ?w0] =>
      pose proof (query_200 salt tr uj f k v k' "v1" m data w0
                    "rooms/message" (Some "status") (PDict body) Hc) as Hq
  end.
  unfold bind.
  destruct (_query salt tr uj "message" k v "POST" _ _) as [o w'].
  cbn [fst] in Hq. rewrite Hq; [| apply message_world_live | reflexivity | exact Htr].
  cbn [py_get]. by destruct (py_truthy _).
Qed.

Lemma send_message_v1_status_witness :
  fst (send_message SaltUnbound
         (answering 200 (Some (PDict [("status", Atom (SStr "sent"))])))
         join_paths (SInt 7) "Build is done" "Build Server"
         (SStr "key") (SStr "v1") (SStr "yellow") (SBool false) world0)
  = Ret PTrue.
Proof.
  refine (send_message_v1_status SaltUnbound _ join_paths (SInt 7)
            "Build is done" "Build Server" (SStr "key") (SStr "v1") (SStr "key")
            (SStr "yellow") (SBool false) [("status", Atom (SStr "sent"))]
            world0 _ _).
  - intros w. reflexivity.
  - intros req. reflexivity.
Defined.

(** ** The world after an operation *)

Section After.
Variable salt : salt_env.
Variable tr : request -> outcome response.
Variable uj : string -> string -> bool -> string.

(** The world a public operation leaves is the one its call of [_query]
    leaves. *)
Lemma call_leaves op k v w :
  exists f m data w0,
    known f /\ live data w0 /\ calls w0 = calls w /\ logs w0 = logs w
    /\ snd (call salt tr uj op k v w)
       = snd (_query salt tr uj f k v m data w0).
Proof.
  destruct op as [| | name | name | room_id message from_name color notify];
    cbn [call].
  - exists "rooms", "GET", None, w. split_and!; try done. by left.
  - exists "users", "GET", None, w. split_and!; try done. right. by left.
  - exists "rooms", "GET", None, w. split_and!; try done; [by left |].
    unfold find_room, list_rooms.
    by rewrite bind_pure by (intros; apply find_in_pure).
  - exists "users", "GET", None, w. split_and!; try done; [right; by left |].
    unfold find_user, list_users.
    by rewrite bind_pure by (intros; apply find_in_pure).
  - eexists "message", "POST", _, _.
    split_and!; [right; by right | apply message_world_live | | | ].
    + done.
    + done.
    + rewrite send_message_run.
      by rewrite bind_pure by (intros a w0; by destruct (py_truthy a)).
Qed.

Lemma query_supported_world f k v k' ver m data w :
  credentials salt k v k' (SStr ver) -> supported ver ->
  known f -> live data w ->
  exists rid url h q b w1,
    _query salt tr uj f k v m data w = execute tr rid ver f m url h q b w1
    /\ calls w1 = calls w /\ logs w1 = logs w.
Proof.
  intros Hc Hv Hf Hl.
  set (d := default ∅ (heap (data_world data w) !! data_ref data w)).
  destruct Hv as [-> | ->].
  - destruct (lookup_known_v1 (room_id_of d) f Hf) as (p & e & E).
    eexists _, _, _, _, _, _. split.
    + by apply (query_v1 salt tr uj f k v k' m data w p (Some e)).
    + by destruct data.
  - destruct (lookup_known_v2 (room_id_of d) f Hf) as (p & e & E).
    eexists _, _, _, _, _, _. split.
    + by apply (query_v2 salt tr uj f k v k' m data w p e).
    + by destruct data.
Qed.

End After.

(** X11: the two failures the module handles leave a record at error
    level.  A missing credential met by the handler of lines 96-98 leaves
    the one text record and no request; a [ConnectionError] leaves the
    request and the exception as record. *)
Theorem absorbed_failures_are_logged salt tr uj op k v w :
  let w' := snd (call salt tr uj op k v w) in
  (truthy k = false \/ truthy v = false ->
   unconfigured salt ->
   calls w' = calls w
   /\ logs w'
      = logs w ++ [(ERROR, LText "No HipChat api key or version found.")])
  /\ (forall k' ver,
        credentials salt k v k' (SStr ver) -> supported ver ->
        (forall req, tr req = Raise ConnectionError) ->
        exists req,
          calls w' = calls w ++ [req]
          /\ logs w' = logs w ++ [(ERROR, LExn ConnectionError)]).
Proof.
  intros w'. unfold w'.
  destruct (call_leaves salt tr uj op k v w)
    as (f & m & data & w0 & Hf & Hl & Hcw & Hlw & ->).
  split.
  - intros Hkv Hs.
    rewrite (query_unconfigured salt tr uj f k v m data w0 Hkv Hs).
    cbn [snd calls logs]. by rewrite Hcw, Hlw.
  - intros k' ver Hc Hv Htr.
    destruct (query_supported_world salt tr uj f k v k' ver m data w0 Hc Hv Hf Hl)
      as (rid & url & h & q & b & w1 & -> & Hc1 & Hl1).
    rewrite execute_refused by apply Htr.
    eexists. cbn [snd calls logs]. by rewrite Hc1, Hl1, Hcw, Hlw.
Qed.

Lemma absorbed_failures_are_logged_witness :
  let w' :=
    snd (call SaltWithout (answering 204 None) join_paths ListUsers
           SNone (SStr "v1") world0) in
  calls w' = []
  /\ logs w' = [(ERROR, LText "No HipChat api key or version found.")].
Proof.
  intros w'.
  refine (proj1 (absorbed_failures_are_logged SaltWithout (answering 204 None)
                   join_paths ListUsers SNone (SStr "v1") world0) _ _).
  - left. reflexivity.
  - exact I.
Defined.

(** X12: a status other than 200 and 204 with a JSON object as body leaves
    four debug records, the URL, the query parameters and the body of the
    request that was sent and the response, and after them the decoded body
    at error level exactly when its [error] member is truthy. *)
Theorem error_answer_logged salt tr uj op k v k' ver status body w :
  credentials salt k v k' (SStr ver) -> supported ver ->
  (forall req, tr req = Ret (Response status (Some (PDict body)))) ->
  status <> 200 -> status <> 204 ->
  let w' := snd (call salt tr uj op k v w) in
  exists req,
    calls w' = calls w ++ [req]
    /\ logs w'
       = logs w
         ++ [(DEBUG, LText (req_url req)); (DEBUG, LParams (req_params req));
             (DEBUG, LBody (req_data req));
             (DEBUG, LResponse (Response status (Some (PDict body))))]
         ++ (if py_truthy (default PNone (assoc "error" body))
             then [(ERROR, LValue (PDict body))] else []).
Proof.
  intros Hc Hv Htr H200 H204 w'. unfold w'.
  destruct (call_leaves salt tr uj op k v w)
    as (f & m & data & w0 & Hf & Hl & Hcw & Hlw & ->).
  destruct (query_supported_world salt tr uj f k v k' ver m data w0 Hc Hv Hf Hl)
    as (rid & url & h & q & b & w1 & -> & Hc1 & Hl1).
  rewrite (execute_answered tr _ _ _ _ _ _ _ _ _ _ (Htr _)).
  rewrite (interpret_error _ _ _ _ _ _ _ _ body) by done.
  eexists. cbn [snd calls logs req_url req_params req_data].
  rewrite Hc1, Hl1, Hcw, Hlw. split; [reflexivity |]. reflexivity.
Qed.

Lemma error_answer_logged_witness :
  let body := [("error", PDict [("message", Atom (SStr "bad token"))])] in
  let w' :=
    snd (call SaltUnbound (answering 401 (Some (PDict body))) join_paths
           ListRooms (SStr "key") (SStr "v2") world0) in
  exists req,
    calls w' = calls world0 ++ [req]
    /\ logs w'
       = logs world0
         ++ [(DEBUG, LText (req_url req)); (DEBUG, LParams (req_params req));
             (DEBUG, LBody (req_data req));
             (DEBUG, LResponse (Response 401 (Some (PDict body))))]
         ++ [(ERROR, LValue (PDict body))].
Proof.
  intros body w'.
  refine (error_answer_logged SaltUnbound (answering 401 (Some (PDict body)))
            join_paths ListRooms (SStr "key") (SStr "v2") (SStr "key") "v2"
            401 body world0 _ _ _ _ _).
  - intros w. reflexivity.
  - right. reflexivity.
  - intros req. reflexivity.
  - discriminate.
  - discriminate.
Defined.

(** X13: under v2 [_query] leaves the dictionary it was given as it is and
    sends its serialisation: every member of the dictionary, [notify]
    included, is in the JSON document with its value, and nothing else
    is. *)
Theorem v2_leaves_data salt tr uj f k v k' m l d w :
  credentials salt k v k' (SStr "v2") ->
  known f ->
  heap w !! l = Some d ->
  let w' := snd (_query salt tr uj f k v m (Some l) w) in
  heap w' = heap w
  /\ exists req doc,
       calls w' = calls w ++ [req]
       /\ req_data req = JsonText doc
       /\ forall key, doc !! key = json_of_scalar <$> d !! key.
Proof.
  intros Hc Hf Hl w'.
  destruct (query_v2_effects salt tr uj f k v k' m (Some l) w Hc Hf)
    as (Hheap & req & p & e & Hcalls & _ & _ & Hdata).
  cbn [data_world data_ref] in Hheap, Hdata. rewrite Hl in Hdata.
  change (default ∅ (Some d)) with d in Hdata.
  split; [exact Hheap |].
  exists req, (json_dumps d). split; [exact Hcalls |]. split; [exact Hdata |].
  intros key. unfold json_dumps. apply lookup_fmap.
Qed.

Lemma v2_leaves_data_witness :
  let d : gmap string scalar := {["notify" := SBool true; "color" := SStr "red"]} in
  let w := World [d] [] [] in
  heap (snd (_query SaltUnbound (failing ConnectionError) join_paths
               "message" (SStr "key") (SStr "v2") "POST" (Some 0%nat) w))
  = [d].
Proof.
  intros d w.
  refine (proj1 (v2_leaves_data SaltUnbound (failing ConnectionError) join_paths
                   "message" (SStr "key") (SStr "v2") (SStr "key") "POST"
                   0%nat d w _ _ _)).
  - intros w0. reflexivity.
  - right. right. reflexivity.
  - reflexivity.
Defined.

(** X14: the body of the request of [send_message] has exactly the six
    members [room_id], [from], [message], [message_format], [color] and
    [notify]; [room_id] and [color] are the arguments as passed and
    [message_format] is [text]. *)
Theorem send_message_body_shape salt tr uj room_id message from_name k v k' ver
    color notify w :
  credentials salt k v k' (SStr ver) -> supported ver ->
  exists req,
    calls (snd (send_message salt tr uj room_id message from_name k v
                  color notify w)) = calls w ++ [req]
    /\ body_keys (req_data req)
       = {["room_id"; "from"; "message"; "message_format"; "color"; "notify"]}
    /\ carries (req_data req) "room_id" room_id
    /\ carries (req_data req) "color" color
    /\ carries (req_data req) "message_format" (SStr "text").
Proof.
  intros Hc Hv.
  destruct (send_message_request salt tr uj room_id message from_name k v k' ver
              color notify w Hc Hv) as (req & Hcalls & _ & Hbody).
  exists req. split; [exact Hcalls |]. split.
  - destruct Hbody as [-> | ->]; cbn [body_keys]; unfold json_dumps;
      rewrite ?dom_fmap_L; unfold message_parameters;
      rewrite !dom_insert_L, dom_empty_L; set_solver.
  - split_and!; (eapply carried_member; [| done | exact Hbody]).
    + apply parameters_room_id.
    + unfold message_parameters. by simplify_map_eq.
    + unfold message_parameters. by simplify_map_eq.
Qed.

Lemma send_message_body_shape_witness :
  exists req,
    calls (snd (send_message SaltUnbound (answering 204 None) join_paths
                  (SInt 7) "Build is done" "Build Server" (SStr "key")
                  (SStr "v1") (SStr "red") (SBool true) world0))
    = calls world0 ++ [req]
    /\ body_keys (req_data req)
       = {["room_id"; "from"; "message"; "message_format"; "color"; "notify"]}
    /\ carries (req_data req) "room_id" (SInt 7)
    /\ carries (req_data req) "color" (SStr "red")
    /\ carries (req_data req) "message_format" (SStr "text").
Proof.
  refine (send_message_body_shape SaltUnbound (answering 204 None) join_paths
            (SInt 7) "Build is done" "Build Server" (SStr "key") (SStr "v1")
            (SStr "key") "v1" (SStr "red") (SBool true) world0 _ _).
  - intros w. reflexivity.
  - left. reflexivity.
Defined.

(** ** Searches *)

Lemma scan_stops name e (pre before : list pyval) r after :
  Forall (fun x => has_name x /\ ~ named x name) before ->
  py_item r "name" = Raise e ->
  scan (PList (pre ++ before ++ r :: after)) name
    (seq (List.length pre) (List.length (before ++ r :: after)))
  = Raise e.
Proof.
  intros Hall Hr. revert pre.
  induction Hall as [| x before [Hx Hno] Hrest IH]; intros pre.
  - cbn [app List.length seq scan py_index].
    assert ((pre ++ r :: after) !! List.length pre = Some r) as ->.
    { by rewrite list_lookup_middle. }
    by rewrite Hr.
  - cbn [app List.length seq scan py_index].
    assert ((pre ++ x :: before ++ r :: after) !! List.length pre = Some x) as ->.
    { by rewrite list_lookup_middle. }
    destruct (has_name_item x name Hx) as (field & -> & Hfield).
    destruct (py_eq_str field name) eqn:Hq.
    { destruct Hno. by apply Hfield. }
    specialize (IH (pre ++ [x])).
    rewrite <- app_assoc, length_app in IH. cbn [List.length app] in IH.
    replace (List.length pre + 1)%nat with (S (List.length pre)) in IH by lia.
    exact IH.
Qed.

Lemma find_in_stops name e before r after w :
  Forall (fun x => has_name x /\ ~ named x name) before ->
  py_item r "name" = Raise e ->
  find_in (PList (before ++ r :: after)) name w = (Raise e, w).
Proof.
  intros Hall Hr. unfold find_in. cbn [py_truthy py_len].
  rewrite bool_decide_eq_false_2 by (by destruct before).
  cbn [negb]. rewrite bind_lift_ret.
  pose proof (scan_stops name e [] before r after Hall Hr) as Hs.
  cbn [app List.length] in Hs. by rewrite Hs.
Qed.

(** X15: the search reads the [name] field of every record up to the first
    match.  When the records before it have other names and it meets an
    object without a [name] member, it raises [KeyError]; a record that is
    not an object raises [TypeError]; whatever follows that record is not
    looked at. *)
Theorem search_stops_at_bad_record salt tr uj name k v w before r after w1 :
  Forall (fun x => has_name x /\ ~ named x name) before ->
  list_rooms salt tr uj k v w = (Ret (PList (before ++ r :: after)), w1) ->
  (forall d, r = PDict d -> assoc "name" d = None ->
     find_room salt tr uj name k v w = (Raise KeyError, w1))
  /\ ((forall d, r <> PDict d) ->
      find_room salt tr uj name k v w = (Raise TypeError, w1)).
Proof.
  intros Hall Hlist. split.
  - intros d -> Hd. unfold find_room. erewrite bind_run by exact Hlist.
    apply find_in_stops; [exact Hall |]. cbn. by rewrite Hd.
  - intros Hr. unfold find_room. erewrite bind_run by exact Hlist.
    apply find_in_stops; [exact Hall |].
    destruct r as [a | l | d]; [done | done | by destruct (Hr d)].
Qed.

Lemma search_stops_at_bad_record_witness :
  let records :=
    [PDict [("name", Atom (SStr "Dev"))]; PDict [("id", Atom (SInt 2))];
     PDict [("name", Atom (SStr "Ops"))]] in
  let tr := answering 200 (Some (PDict [("rooms", PList records)])) in
  fst (find_room SaltUnbound tr join_paths "Ops" (SStr "key") (SStr "v1") world0)
  = Raise KeyError.
Proof.
  intros records tr.
  refine (f_equal fst
            (proj1 (search_stops_at_bad_record SaltUnbound tr join_paths "Ops"
                      (SStr "key") (SStr "v1") world0
                      [PDict [("name", Atom (SStr "Dev"))]]
                      (PDict [("id", Atom (SInt 2))])
                      [PDict [("name", Atom (SStr "Ops"))]]
                      (snd (list_rooms SaltUnbound tr join_paths
                              (SStr "key") (SStr "v1") world0)) _ _)
               [("id", Atom (SInt 2))] eq_refl eq_refl)).
  - constructor; [| constructor]. split.
    + eexists _, _. split; reflexivity.
    + intros (d & [= <-] & Hd). discriminate.
  - vm_compute. reflexivity.
Defined.

(** X16: a search is its listing followed by a scan that touches nothing:
    the world after [find_room] is the world after [list_rooms] (the same
    request, the same log records), an exception of the listing is the
    exception of the search, and a falsy listing (the [False] of a failure,
    an absent envelope, an empty list) is a miss.  The same holds for
    [find_user] and [list_users]. *)
Theorem search_after_listing salt tr uj name k v w :
  (snd (find_room salt tr uj name k v w) = snd (list_rooms salt tr uj k v w)
   /\ (forall e, fst (list_rooms salt tr uj k v w) = Raise e ->
         fst (find_room salt tr uj name k v w) = Raise e)
   /\ (forall r, fst (list_rooms salt tr uj k v w) = Ret r ->
         py_truthy r = false ->
         fst (find_room salt tr uj name k v w) = Ret PFalse))
  /\ (snd (find_user salt tr uj name k v w) = snd (list_users salt tr uj k v w)
      /\ (forall e, fst (list_users salt tr uj k v w) = Raise e ->
            fst (find_user salt tr uj name k v w) = Raise e)
      /\ (forall r, fst (list_users salt tr uj k v w) = Ret r ->
            py_truthy r = false ->
            fst (find_user salt tr uj name k v w) = Ret PFalse)).
Proof.
  split.
  - unfold find_room. split_and!.
    + by rewrite bind_pure by (intros; apply find_in_pure).
    + intros e He. unfold bind.
      destruct (list_rooms salt tr uj k v w) as [o w']. cbn in He. by subst o.
    + intros r Hr Hfalsy. unfold bind.
      destruct (list_rooms salt tr uj k v w) as [o w']. cbn in Hr. subst o.
      unfold find_in. by rewrite Hfalsy.
  - unfold find_user. split_and!.
    + by rewrite bind_pure by (intros; apply find_in_pure).
    + intros e He. unfold bind.
      destruct (list_users salt tr uj k v w) as [o w']. cbn in He. by subst o.
    + intros r Hr Hfalsy. unfold bind.
      destruct (list_users salt tr uj k v w) as [o w']. cbn in Hr. subst o.
      unfold find_in. by rewrite Hfalsy.
Qed.

(** X17: a status 204 on a listing is [True] to [_query], and [True] has
    no length: with a supported version, [find_room] and [find_user]
    answered with status 204 raise [TypeError], while [list_rooms] and
    [list_users] return [True]. *)
Theorem search_after_no_content salt tr uj name k v k' ver w :
  credentials salt k v k' (SStr ver) -> supported ver ->
  (forall req, exists j, tr req = Ret (Response 204 j)) ->
  fst (list_rooms salt tr uj k v w) = Ret PTrue
  /\ fst (list_users salt tr uj k v w) = Ret PTrue
  /\ fst (find_room salt tr uj name k v w) = Raise TypeError
  /\ fst (find_user salt tr uj name k v w) = Raise TypeError.
Proof.
  intros Hc Hv Htr.
  destruct (query_no_content salt tr uj "rooms" k v k' ver "GET" None w Hc Hv)
    as [w1 E1]; [by left | done | exact Htr |].
  destruct (query_no_content salt tr uj "users" k v k' ver "GET" None w Hc Hv)
    as [w2 E2]; [right; by left | done | exact Htr |].
  unfold find_room, find_user, list_rooms, list_users.
  split_and!.
  - by rewrite E1.
  - by rewrite E2.
  - by erewrite bind_run by exact E1.
  - by erewrite bind_run by exact E2.
Qed.

Lemma search_after_no_content_witness :
  fst (find_user SaltUnbound (answering 204 None) join_paths "Thomas Hatch"
         (SStr "key") (SStr "v2") world0)
  = Raise TypeError.
Proof.
  refine (proj2 (proj2 (proj2
            (search_after_no_content SaltUnbound (answering 204 None) join_paths
               "Thomas Hatch" (SStr "key") (SStr "v2") (SStr "key") "v2" world0
               _ _ _)))).
  - intros w. reflexivity.
  - right. reflexivity.
  - intros req. by exists None.
Defined.

(** X18: under v2 the listings, which pass no [data], send a GET request
    whose body is the serialisation of the empty dictionary, and allocate
    that dictionary without writing to it. *)
Theorem v2_listing_body salt tr uj k v k' w :
  credentials salt k v k' (SStr "v2") ->
  (exists req,
     calls (snd (list_rooms salt tr uj k v w)) = calls w ++ [req]
     /\ req_method req = "GET" /\ req_data req = JsonText ∅)
  /\ (exists req,
        calls (snd (list_users salt tr uj k v w)) = calls w ++ [req]
        /\ req_method req = "GET" /\ req_data req = JsonText ∅)
  /\ heap (snd (list_rooms salt tr uj k v w)) = heap w ++ [∅]
  /\ heap (snd (list_users salt tr uj k v w)) = heap w ++ [∅].
Proof.
  intros Hc. unfold list_rooms, list_users.
  assert (forall f, known f ->
            (exists req,
               calls (snd (_query salt tr uj f k v "GET" None w)) = calls w ++ [req]
               /\ req_method req = "GET" /\ req_data req = JsonText ∅)
            /\ heap (snd (_query salt tr uj f k v "GET" None w)) = heap w ++ [∅])
    as Hlist.
  { intros f Hf.
    destruct (lookup_known_v2 (room_id_of ∅) f Hf) as (p & e & E).
    pose proof (query_v2 salt tr uj f k v k' "GET" None w p e Hc) as Hq.
    cbv zeta in Hq. rewrite fresh_dict in Hq. rewrite (Hq E).
    match goal with
    | |- context [execute tr ?rid ?ver ?f ?m ?url ?h ?q ?b ?w0] =>
        destruct (execute_effects tr rid ver f m url h q b w0) as [-> ->]
    end.
    split; [| done]. eexists. split; [reflexivity |]. split; [done |].
    cbn [req_data]. unfold json_dumps. by rewrite fmap_empty. }
  destruct (Hlist "rooms") as [Hr1 Hr2]; [by left |].
  destruct (Hlist "users") as [Hu1 Hu2]; [right; by left |].
  by split_and!.
Qed.

Lemma v2_listing_body_witness :
  exists req,
    calls (snd (list_rooms SaltUnbound (answering 204 None) join_paths
                  (SStr "key") (SStr "v2") world0))
    = calls world0 ++ [req]
    /\ req_method req = "GET" /\ req_data req = JsonText ∅.
Proof.
  refine (proj1 (v2_listing_body SaltUnbound (answering 204 None) join_paths
                   (SStr "key") (SStr "v2") (SStr "key") world0 _)).
  intros w. reflexivity.
Defined.

(** ** C6: what [send_message] builds and sends *)

Lemma substring_length_min n s :
  String.length (String.substring 0 n s) = Nat.min n (String.length s).
Proof.
  revert s. induction n as [| n IH]; intros [| c s]; cbn; try done.
  by rewrite IH.
Qed.

Lemma slice_to_exact n s :
  0 <= n ->
  Z.of_nat (String.length (slice_to n s)) = Z.min n (Z.of_nat (String.length s)).
Proof. intros Hn. unfold slice_to. rewrite substring_length_min. lia. Qed.

(** The dictionary [send_message] builds is in the heap after the run,
    whatever became of the request, with the truncated strings in it. *)
Lemma send_message_dictionary salt tr uj room_id message from_name k v
    color notify w :
  exists d,
    heap (snd (send_message salt tr uj room_id message from_name k v
                 color notify w)) !! List.length (heap w) = Some d
    /\ d !! "from" = Some (SStr (slice_to 15 from_name))
    /\ d !! "message" = Some (SStr (slice_to 10000 message)).
Proof.
  rewrite send_message_run.
  rewrite bind_pure by (intros a w'; by destruct (py_truthy a)).
  set (d := message_parameters room_id message from_name color notify).
  set (w0 := World (heap w ++ [d]) (calls w) (logs w)).
  assert (known "message") as Hf by (right; by right).
  assert (live (Some (List.length (heap w))) w0) as Hl.
  { apply message_world_live. }
  assert (d !! "from" = Some (SStr (slice_to 15 from_name))) as Hfrom
    by apply parameters_from.
  assert (d !! "message" = Some (SStr (slice_to 10000 message))) as Hmsg
    by apply parameters_message.
  assert (default ∅ (heap w0 !! List.length (heap w)) = d) as Hd.
  { cbn. by rewrite lookup_last. }
  destruct (query_cases salt tr uj "message" k v "POST"
              (Some (List.length (heap w))) w0 Hf Hl)
    as [E | [[e E] | [(k' & p & e & _ & _ & E) | (k' & p & e & _ & _ & E)]]];
    rewrite E; clear E; cbn [data_world data_ref].
  - exists d. subst w0. cbn [snd heap]. by rewrite lookup_last.
  - exists d. subst w0. cbn [snd heap]. by rewrite lookup_last.
  - match goal with
    | |- context [execute tr ?rid ?ver ?f ?m ?url ?h ?q ?b ?w1] =>
        destruct (execute_effects tr rid ver f m url h q b w1) as [_ ->]
    end.
    rewrite Hd. subst w0. cbn [heap]. rewrite insert_last, lookup_last.
    eexists. split; [reflexivity |].
    by rewrite !lookup_insert_ne.
  - match goal with
    | |- context [execute tr ?rid ?ver ?f ?m ?url ?h ?q ?b ?w1] =>
        destruct (execute_effects tr rid ver f m url h q b w1) as [_ ->]
    end.
    exists d. subst w0. cbn [heap]. by rewrite lookup_last.
Qed.

(** C6: whatever [from_name] and [message] are, [send_message] puts into
    the dictionary it builds, under [from] and [message], exactly the
    first 15 characters of [from_name] and the first 10000 of [message]
    (the whole string when it is shorter).  Every request it hands to the
    transport carries these two values in its body, and with a supported
    version it hands over exactly one.  The run, result included, is the
    run on the truncated strings: nothing reports the truncation. *)
Theorem send_message_truncates salt tr uj room_id message from_name k v
    color notify w :
  let from' := slice_to 15 from_name in
  let message' := slice_to 10000 message in
  let run :=
    send_message salt tr uj room_id message from_name k v color notify w in
  (Z.of_nat (String.length from') <= 15
   /\ exists rest, from_name = from' +:+ rest)
  /\ (Z.of_nat (String.length message') <= 10000
      /\ exists rest, message = message' +:+ rest)
  /\ (exists sent,
        calls (snd run) = calls w ++ sent
        /\ forall req, req ∈ sent ->
             carries (req_data req) "from" (SStr from')
             /\ carries (req_data req) "message" (SStr message'))
  /\ run = send_message salt tr uj room_id message' from' k v color notify w
  /\ Z.of_nat (String.length from')
     = Z.min 15 (Z.of_nat (String.length from_name))
  /\ Z.of_nat (String.length message')
     = Z.min 10000 (Z.of_nat (String.length message))
  /\ (exists d,
        heap (snd run) !! List.length (heap w) = Some d
        /\ d !! "from" = Some (SStr from')
        /\ d !! "message" = Some (SStr message'))
  /\ (forall k' ver,
        credentials salt k v k' (SStr ver) -> supported ver ->
        exists req,
          calls (snd run) = calls w ++ [req]
          /\ req_method req = "POST"
          /\ carries (req_data req) "from" (SStr from')
          /\ carries (req_data req) "message" (SStr message')).
Proof.
  intros from' message' run. split_and!.
  - by apply slice_to_length.
  - apply substring_prefix.
  - by apply slice_to_length.
  - apply substring_prefix.
  - destruct (send_message_sends salt tr uj room_id message from_name k v
                color notify w) as (sent & Hsent & Hcases).
    exists sent. split; [exact Hsent |].
    intros req Hreq.
    destruct Hcases as [-> | (req' & -> & Hbody)]; [by apply elem_of_nil in Hreq |].
    apply list_elem_of_singleton in Hreq as ->.
    split; (eapply carried_member; [| done | exact Hbody]).
    + apply parameters_from.
    + apply parameters_message.
  - unfold run, from', message'. rewrite !send_message_run.
    unfold message_parameters, slice_to.
    by rewrite !substring_idem.
  - by apply slice_to_exact.
  - by apply slice_to_exact.
  - apply send_message_dictionary.
  - intros k' ver Hc Hv.
    destruct (send_message_request salt tr uj room_id message from_name k v k' ver
                color notify w Hc Hv) as (req & Hcalls & Hm & Hbody).
    exists req. split; [exact Hcalls |]. split; [exact Hm |].
    split; (eapply carried_member; [| done | exact Hbody]).
    + apply parameters_from.
    + apply parameters_message.
Qed.

Lemma send_message_truncates_witness :
  let run version :=
    send_message SaltUnbound (answering 204 None) join_paths (SInt 7)
      "Build is done" "The Build Server Number Two" (SStr "key") (SStr version)
      (SStr "yellow") (SBool false) world0 in
  (exists d,
     heap (snd (run "v3")) !! 0%nat = Some d
     /\ d !! "from" = Some (SStr "The Build Serve")
     /\ d !! "message" = Some (SStr "Build is done"))
  /\ (exists req,
        calls (snd (run "v1")) = [req]
        /\ req_method req = "POST"
        /\ carries (req_data req) "from" (SStr "The Build Serve")
        /\ carries (req_data req) "message" (SStr "Build is done")).
Proof.
  intros run. split.
  - exact (proj1 (proj2 (proj2 (proj2 (proj2 (proj2 (proj2
             (send_message_truncates SaltUnbound (answering 204 None) join_paths
                (SInt 7) "Build is done" "The Build Server Number Two"
                (SStr "key") (SStr "v3") (SStr "yellow") (SBool false)
                world0)))))))).
  - refine (proj2 (proj2 (proj2 (proj2 (proj2 (proj2 (proj2
             (send_message_truncates SaltUnbound (answering 204 None) join_paths
                (SInt 7) "Build is done" "The Build Server Number Two"
                (SStr "key") (SStr "v1") (SStr "yellow") (SBool false)
                world0)))))))
             (SStr "key") "v1" _ _).
    + intros w. reflexivity.
    + left. reflexivity.
Defined.
